(** * Home-automation capability server and its chat client

    A shallow embedding of [MCPServer_HomeAutomation.py] (the device
    table, the bounded event log and the four mutating tools) and of the
    lifecycle and turn functions of [MCPClient_GradioUI.py], followed by
    the properties of the specification that concern them. *)

From Stdlib Require Import ZArith String Ascii List Bool Lia.
From Stdlib Require Import DecimalString.
From Stdlib Require Import Floats.PrimFloat Floats.SpecFloat Floats.FloatOps.
Import ListNotations.

Local Open Scope string_scope.
Local Open Scope Z_scope.

(** ** Python values used by both programs *)

Module Py.

(** [str(n)] for an [int]. *)
Definition str_int (n : Z) : string := NilZero.string_of_int (Z.to_int n).

(** [needle in haystack] for two [str]. *)
Fixpoint contains (needle haystack : string) : bool :=
  String.prefix needle haystack ||
  match haystack with
  | EmptyString => false
  | String _ rest => contains needle rest
  end.

(** The decimal integer nearest to [10 * x] for a finite binary64 value
    [x = m * 2^e], ties going to the even integer: the digits that
    [round(x, 1)] asks of the correctly rounded conversion. *)
Definition nearest_tenths (m : positive) (e : Z) : Z :=
  match e with
  | Zneg k =>
      let n := 10 * Zpos m in
      let d := Z.pow_pos 2 k in
      let q := n / d in
      let r := n mod d in
      match Z.compare (2 * r) d with
      | Lt => q
      | Gt => q + 1
      | Eq => if Z.even q then q else q + 1
      end
  | _ => 10 * Zpos m * 2 ^ e
  end.

(** [round(x, 1)] for a [float]: infinities and NaN are returned as they
    are; a finite [x] is converted to the nearest decimal with one
    fractional digit and that decimal is read back as the nearest
    binary64 value, the sign of [x] being kept. *)
Definition round1 (x : float) : float :=
  match Prim2SF x with
  | S754_finite s m e =>
      match nearest_tenths m e with
      | Zpos t => SF2Prim (SFdiv prec emax (S754_finite s t 0) (S754_finite false 10 0))
      | _ => SF2Prim (S754_zero s)
      end
  | _ => x
  end.

(** [sep.join(parts)] *)
Fixpoint join (sep : string) (parts : list string) : string :=
  match parts with
  | [] => ""
  | [p] => p
  | p :: rest => p ++ sep ++ join sep rest
  end.

(** The line feed of a string literal. *)
Definition nl : string := String "010" "".

(** [lo <= x <= hi] on floats (false as soon as [x] is NaN). *)
Definition between (lo x hi : float) : bool :=
  (PrimFloat.leb lo x && PrimFloat.leb x hi)%bool.

End Py.

(** ** The capability server: [MCPServer_HomeAutomation.py] *)

Module HomeAutomation.

(** The three entries of the [DEVICES] dictionary. The keys of the
    dictionary and of its entries are fixed by the module and no function
    adds or removes one, so each entry is a record. *)
Record Light := mkLight {
  light_name : string;
  light_type : string;
  light_state : string;
  brightness : Z
}.

Record Thermostat := mkThermostat {
  thermostat_name : string;
  thermostat_type : string;
  temperature : float;
  target_temperature : float
}.

Record Lock := mkLock {
  lock_name : string;
  lock_type : string;
  lock_state : string
}.

Record Devices := mkDevices {
  living_room_light : Light;
  thermostat : Thermostat;
  front_door : Lock
}.

(** One entry of [EVENT_LOG]. *)
Record Event := mkEvent {
  timestamp : string;
  device : string;
  action : string
}.

(** The module's two global registries. *)
Record Server := mkServer {
  DEVICES : Devices;
  EVENT_LOG : list Event
}.

Definition initial_devices : Devices :=
  mkDevices
    (mkLight "Living Room Light" "light" "off" 50)
    (mkThermostat "Home Thermostat" "thermostat" 22.0%float 22.0%float)
    (mkLock "Front Door Lock" "lock" "locked").

Definition initial : Server := mkServer initial_devices [].

(** Field updates, [device['state'] = v] and the like. *)
Definition set_light_state (v : string) (l : Light) : Light :=
  mkLight (light_name l) (light_type l) v (brightness l).

Definition set_brightness (v : Z) (l : Light) : Light :=
  mkLight (light_name l) (light_type l) (light_state l) v.

Definition set_target (v : float) (t : Thermostat) : Thermostat :=
  mkThermostat (thermostat_name t) (thermostat_type t) (temperature t) v.

Definition set_current (v : float) (t : Thermostat) : Thermostat :=
  mkThermostat (thermostat_name t) (thermostat_type t) v (target_temperature t).

Definition set_lock_state (v : string) (k : Lock) : Lock :=
  mkLock (lock_name k) (lock_type k) v.

Definition with_light (l : Light) (d : Devices) : Devices :=
  mkDevices l (thermostat d) (front_door d).

Definition with_thermostat (t : Thermostat) (d : Devices) : Devices :=
  mkDevices (living_room_light d) t (front_door d).

Definition with_lock (k : Lock) (d : Devices) : Devices :=
  mkDevices (living_room_light d) (thermostat d) k.

(** [DEVICES.get(device_id, {}).get("name", device_id)] *)
Definition device_name (d : Devices) (device_id : string) : string :=
  if String.eqb device_id "living_room_light" then light_name (living_room_light d)
  else if String.eqb device_id "thermostat" then thermostat_name (thermostat d)
  else if String.eqb device_id "front_door" then lock_name (front_door d)
  else device_id.

(** The capacity kept by [log_event]. *)
Definition capacity : nat := 10.

(** [EVENT_LOG.append(event)] followed by
    [if len(EVENT_LOG) > 10: EVENT_LOG.pop(0)]. *)
Definition append_bounded (e : Event) (log : list Event) : list Event :=
  let log' := (log ++ [e])%list in
  if (capacity <? length log')%nat then tl log' else log'.

(** The entry [log_event] builds from its arguments and the clock. *)
Definition event_of (d : Devices) (ev : string * string * string) : Event :=
  let '(now, device_id, act) := ev in mkEvent now (device_name d device_id) act.

(** [log_event]; [now] is what
    [datetime.now().strftime("%Y-%m-%d %H:%M:%S")] yields at the call. *)
Definition log_event (now device_id act : string) (s : Server) : Server :=
  let event := event_of (DEVICES s) (now, device_id, act) in
  mkServer (DEVICES s) (append_bounded event (EVENT_LOG s)).

(** [EVENT_LOG[-5:]], the slice served by the [home://device_status]
    resource. *)
Definition recent_events (s : Server) : list Event :=
  skipn (length (EVENT_LOG s) - 5)%nat (EVENT_LOG s).

Definition activate_scene (now scene : string) (s : Server) : string * Server :=
  let d := DEVICES s in
  let '(d, actions) :=
    if String.eqb scene "evening" then
      (* Evening: Light on at 70%, comfortable temperature *)
      (mkDevices
         (set_brightness 70 (set_light_state "on" (living_room_light d)))
         (set_target 19.0%float (thermostat d))
         (set_lock_state "locked" (front_door d)),
       ["Living room light on at 70%"; "Temperature set to 19°C"; "Front door locked"])
    else if String.eqb scene "morning" then
      (* Morning: Light on bright, slightly warmer *)
      (mkDevices
         (set_brightness 90 (set_light_state "on" (living_room_light d)))
         (set_target 23.0%float (thermostat d))
         (set_lock_state "unlocked" (front_door d)),
       ["Living room light on at 90%"; "Temperature set to 23°C"; "Front door unlocked"])
    else if String.eqb scene "away" then
      (* Away: Everything off/secure *)
      (mkDevices
         (set_light_state "off" (living_room_light d))
         (set_target 15.0%float (thermostat d))
         (set_lock_state "locked" (front_door d)),
       ["Light turned off"; "Temperature lowered to 15°C"; "Front door locked"])
    else (d, []) in
  let s := mkServer d (EVENT_LOG s) in
  let s := log_event now "scene_control" ("Scene '" ++ scene ++ "' activated") s in
  ("🎬 Scene '" ++ scene ++ "' activated!" ++ Py.nl ++ "✅ " ++
   Py.join (Py.nl ++ "✅ ") actions,
   s).

(** The arguments the tool signatures declare with [Literal]. *)
Inductive LightAction := LightOn | LightOff | LightToggle.
Inductive LockAction := DoorLock | DoorUnlock.
Inductive Scene := Evening | Morning | Away.

Definition light_action_str (a : LightAction) : string :=
  match a with LightOn => "on" | LightOff => "off" | LightToggle => "toggle" end.

Definition lock_action_str (a : LockAction) : string :=
  match a with DoorLock => "lock" | DoorUnlock => "unlock" end.

Definition scene_str (sc : Scene) : string :=
  match sc with Evening => "evening" | Morning => "morning" | Away => "away" end.

(** A call of one of the four mutating tools, with arguments of the
    declared types. *)
Inductive ToolCall :=
| ControlLight (a : LightAction) (bright : option Z)
| SetTemperature (target : float)
| ControlDoorLock (a : LockAction)
| ActivateScene (sc : Scene).

(** The argument domains the tools document: brightness (0-100) and
    target temperature (16-30°C). *)
Definition brightness_ok (bright : option Z) : bool :=
  match bright with
  | Some b => ((0 <=? b) && (b <=? 100))%bool
  | None => true
  end.

Definition in_domain (c : ToolCall) : bool :=
  match c with
  | ControlLight _ bright => brightness_ok bright
  | SetTemperature t => Py.between 16 t 30
  | _ => true
  end.

(** The shape of the results that report a rejected argument. *)
Definition is_error (result : string) : bool :=
  String.prefix "❌ Error" result.

(** What an accepted call does to the log: one bounded append, stamped
    with the clock of the call, and a result that is no error. *)
Definition logs_once (now : string) (s : Server) (out : string * Server) : Prop :=
  exists e,
    EVENT_LOG (snd out) = append_bounded e (EVENT_LOG s)
    /\ timestamp e = now
    /\ is_error (fst out) = false.

(** The closed range [set_temperature] accepts. *)
Definition target_in_range (s : Server) : bool :=
  Py.between 16 (target_temperature (thermostat (DEVICES s))) 30.

Section Tools.

(** How Python formats a [float] inside an f-string. *)
Variable str_float : float -> string.

Definition control_light (now act : string) (bright : option Z) (s : Server)
  : string * Server :=
  let device := living_room_light (DEVICES s) in
  (* Handle brightness first (but don't change state yet) *)
  let checked :=
    match bright with
    | Some b =>
        if ((0 <=? b) && (b <=? 100))%bool
        then Some (set_brightness b device)
        else None
    | None => Some device
    end in
  match checked with
  | None => ("❌ Error: Brightness must be between 0 and 100", s)
  | Some device =>
      let device :=
        if String.eqb act "on" then set_light_state "on" device
        else if String.eqb act "off" then set_light_state "off" device
        else if String.eqb act "toggle" then
          set_light_state
            (if String.eqb (light_state device) "off" then "on" else "off") device
        else device in
      (* If brightness is 0, force the light off regardless of action *)
      let device :=
        match bright with
        | Some 0 => set_light_state "off" device
        | _ => device
        end in
      let s := mkServer (with_light device (DEVICES s)) (EVENT_LOG s) in
      let s :=
        log_event now "living_room_light"
          ("Light turned " ++ light_state device ++
           (if String.eqb (light_state device) "on"
            then " at " ++ Py.str_int (brightness device) ++ "%" else ""))
          s in
      ("✅ Living Room Light is now " ++ light_state device ++
       (if String.eqb (light_state device) "on"
        then " at " ++ Py.str_int (brightness device) ++ "% brightness" else ""),
       s)
  end.

Definition set_temperature (now : string) (target : float) (s : Server)
  : string * Server :=
  if negb (Py.between 16 target 30) then
    ("❌ Error: Temperature must be between 16°C and 30°C", s)
  else
    let device := thermostat (DEVICES s) in
    let old_target := target_temperature device in
    let device := set_target target device in
    (* Simulate gradual temperature change *)
    let temp_diff := (target - temperature device)%float in
    let device :=
      set_current
        (Py.round1 (temperature device + temp_diff * 0x1.999999999999ap-3)%float)
        device in
    let s := mkServer (with_thermostat device (DEVICES s)) (EVENT_LOG s) in
    let s :=
      log_event now "thermostat"
        ("Temperature set to " ++ str_float target ++ "°C") s in
    ("🌡️ Thermostat set to " ++ str_float target ++ "°C (was " ++
     str_float old_target ++ "°C)" ++ Py.nl ++ "Current temperature: " ++
     str_float (temperature device) ++ "°C",
     s).

Definition control_door_lock (now act : string) (s : Server) : string * Server :=
  let device := front_door (DEVICES s) in
  let device :=
    if String.eqb act "lock" then set_lock_state "locked" device
    else if String.eqb act "unlock" then set_lock_state "unlocked" device
    else device in
  let s := mkServer (with_lock device (DEVICES s)) (EVENT_LOG s) in
  let s := log_event now "front_door" ("Door " ++ act ++ "ed") s in
  ("🚪 Front door is now " ++ lock_state device, s).

Definition call_tool (now : string) (c : ToolCall) (s : Server) : string * Server :=
  match c with
  | ControlLight a bright => control_light now (light_action_str a) bright s
  | SetTemperature target => set_temperature now target s
  | ControlDoorLock a => control_door_lock now (lock_action_str a) s
  | ActivateScene sc => activate_scene now (scene_str sc) s
  end.

(** The server after a sequence of tool calls, each with the clock
    reading at its time. *)
Fixpoint run_calls (calls : list (string * ToolCall)) (s : Server) : Server :=
  match calls with
  | [] => s
  | (now, c) :: rest => run_calls rest (snd (call_tool now c s))
  end.

End Tools.

(** The log after a sequence of [log_event] calls. *)
Fixpoint log_events (evs : list (string * string * string)) (s : Server) : Server :=
  match evs with
  | [] => s
  | (now, device_id, act) :: rest => log_events rest (log_event now device_id act s)
  end.

(** *** What holds of the device table and of the log entries *)

(** The values the tools can put in the table: a light that is on or
    off with a brightness from 0 to 100, a lock that is locked or
    unlocked, and the names and types the module starts with. *)
Definition devices_ok (d : Devices) : Prop :=
  (light_state (living_room_light d) = "on"
   \/ light_state (living_room_light d) = "off")
  /\ 0 <= brightness (living_room_light d) <= 100
  /\ (lock_state (front_door d) = "locked"
      \/ lock_state (front_door d) = "unlocked")
  /\ light_name (living_room_light d) = "Living Room Light"
  /\ thermostat_name (thermostat d) = "Home Thermostat"
  /\ lock_name (front_door d) = "Front Door Lock"
  /\ light_type (living_room_light d) = "light"
  /\ thermostat_type (thermostat d) = "thermostat"
  /\ lock_type (front_door d) = "lock".

(** The device labels [log_event] can write when the names are the
    initial ones. *)
Definition known_label (e : Event) : Prop :=
  device e = "Living Room Light" \/ device e = "Home Thermostat"
  \/ device e = "Front Door Lock" \/ device e = "scene_control".

(** The number of calls of a sequence whose arguments are in their
    domains. *)
Definition count_accepted (calls : list (string * ToolCall)) : nat :=
  length (filter (fun call => in_domain (snd call)) calls).

End HomeAutomation.

(** ** The chat client: [MCPClient_GradioUI.py] *)

Module Client.

Definition MCP_SERVER_FILE : string := "./MCPServer_HomeAutomation.py".

(** *** Objects the client holds *)

(** A child process running the server file, as the operating system
    sees it: [start_mcp_server] starts one with [subprocess.Popen], and
    an [MCPServerStdio] session starts its own from the command of its
    [params] when it is entered. *)
Inductive ProcStatus := Running | Exited.

(** An [MCPServerStdio] object: built, entered with [__aenter__], which
    starts the server process the session talks to ([child] is its
    position in the process table), left with [__aexit__], which ends
    that process. *)
Inductive SessionStatus := Built | Entered (child : nat) | Closed.

(** An [Agent]: its name, its instructions and the servers (sessions)
    whose tools it may call. The model handle is fixed configuration and
    is left out. *)
Record Agent := mkAgent {
  agent_name : string;
  instructions : string;
  mcp_servers : list nat
}.

(** An item of the list form of the agent's input. *)
Record Message := mkMessage {
  role : string;
  content : string
}.

(** An entry of the chat history the front end draws. *)
Record ChatEntry := mkChatEntry {
  entry_role : string;
  entry_content : string;
  avatar : string
}.

(** What [Runner.run] returns: [to_input_list()] and [final_output]. *)
Record RunResult := mkRunResult {
  to_input_list : list Message;
  final_output : string
}.

(** The [input] argument of [Runner.run]: a text or a list of items. *)
Inductive AgentInput :=
| InputText (text : string)
| InputList (items : list Message).

(** One call of [Runner.run], inside [trace(..., group_id=...)]. *)
Record RunnerCall := mkRunnerCall {
  starting_agent : Agent;
  input : AgentInput;
  group_id : option string
}.

(** The module's globals, followed by what lives outside the
    interpreter: the processes and sessions created so far (a process or
    session is named by its position) and the calls made to the agent
    runner. *)
Record World := mkWorld {
  agent : option Agent;
  mcp_server : option nat;
  server_process : option nat;
  current_thread_id : option string;
  previous_result : option RunResult;
  aoai_client : bool;
  processes : list ProcStatus;
  sessions : list SessionStatus;
  runner_calls : list RunnerCall
}.

Definition initial : World :=
  mkWorld None None None None None false [] [] [].

Definition set_agent (v : option Agent) (w : World) : World :=
  mkWorld v (mcp_server w) (server_process w) (current_thread_id w)
    (previous_result w) (aoai_client w) (processes w) (sessions w) (runner_calls w).

Definition set_mcp_server (v : option nat) (w : World) : World :=
  mkWorld (agent w) v (server_process w) (current_thread_id w)
    (previous_result w) (aoai_client w) (processes w) (sessions w) (runner_calls w).

Definition set_server_process (v : option nat) (w : World) : World :=
  mkWorld (agent w) (mcp_server w) v (current_thread_id w)
    (previous_result w) (aoai_client w) (processes w) (sessions w) (runner_calls w).

Definition set_current_thread_id (v : option string) (w : World) : World :=
  mkWorld (agent w) (mcp_server w) (server_process w) v
    (previous_result w) (aoai_client w) (processes w) (sessions w) (runner_calls w).

Definition set_previous_result (v : option RunResult) (w : World) : World :=
  mkWorld (agent w) (mcp_server w) (server_process w) (current_thread_id w)
    v (aoai_client w) (processes w) (sessions w) (runner_calls w).

Definition set_aoai_client (v : bool) (w : World) : World :=
  mkWorld (agent w) (mcp_server w) (server_process w) (current_thread_id w)
    (previous_result w) v (processes w) (sessions w) (runner_calls w).

Definition set_processes (v : list ProcStatus) (w : World) : World :=
  mkWorld (agent w) (mcp_server w) (server_process w) (current_thread_id w)
    (previous_result w) (aoai_client w) v (sessions w) (runner_calls w).

Definition set_sessions (v : list SessionStatus) (w : World) : World :=
  mkWorld (agent w) (mcp_server w) (server_process w) (current_thread_id w)
    (previous_result w) (aoai_client w) (processes w) v (runner_calls w).

Definition set_runner_calls (v : list RunnerCall) (w : World) : World :=
  mkWorld (agent w) (mcp_server w) (server_process w) (current_thread_id w)
    (previous_result w) (aoai_client w) (processes w) (sessions w) v.

(** [l[i] = x], nothing when [i] is out of range. *)
Fixpoint update {A : Type} (i : nat) (x : A) (l : list A) {struct l} : list A :=
  match l with
  | [] => []
  | y :: rest =>
      match i with
      | O => x :: rest
      | S j => y :: update j x rest
      end
  end.

Definition is_running (p : ProcStatus) : bool :=
  match p with Running => true | Exited => false end.

(** Whether the child at position [pid] of a process table is live. *)
Definition live_at (table : list ProcStatus) (pid : nat) : bool :=
  match nth_error table pid with
  | Some Running => true
  | _ => false
  end.

Definition running (w : World) (pid : nat) : bool :=
  live_at (processes w) pid.

(** The number of live child processes. *)
Definition live_count (w : World) : nat :=
  length (filter is_running (processes w)).

(** *** Computations that may raise

    A computation runs on the world and either returns a value or raises
    an exception, of which the handlers only use [str(e)]. *)

Inductive Result (A : Type) :=
| Ok (a : A)
| Raised (msg : string).
Arguments Ok {A} a.
Arguments Raised {A} msg.

Definition M (A : Type) : Type := World -> Result A * World.

Definition ret {A : Type} (a : A) : M A := fun w => (Ok a, w).

Definition raise {A : Type} (msg : string) : M A := fun w => (Raised msg, w).

Definition bind {A B : Type} (c : M A) (k : A -> M B) : M B :=
  fun w =>
    match c w with
    | (Ok a, w') => k a w'
    | (Raised msg, w') => (Raised msg, w')
    end.

(** [try: body  except Exception as e: return handler(str(e))] *)
Definition try_except {A : Type} (body : M A) (handler : string -> A) : World -> A * World :=
  fun w =>
    match body w with
    | (Ok a, w') => (a, w')
    | (Raised msg, w') => (handler msg, w')
    end.

Definition modify (f : World -> World) : M unit := fun w => (Ok tt, f w).

Definition get {A : Type} (f : World -> A) : M A := fun w => (Ok (f w), w).

(** A call into the environment that raises when the environment says
    so. *)
Definition may_raise (outcome : option string) : M unit :=
  match outcome with
  | Some msg => raise msg
  | None => ret tt
  end.

Declare Scope client_scope.
Delimit Scope client_scope with client.
Notation "x <- c ;; k" := (bind c (fun x => k))
  (at level 61, c at next level, right associativity) : client_scope.
Notation "c ;;; k" := (bind c (fun _ => k))
  (at level 61, right associativity) : client_scope.

Local Open Scope client_scope.

(** *** What the environment decides during a call *)

(** [create_agent]: whether building the credential and the Azure client
    raises (asked only when no client exists yet) and whether building
    the [Agent] raises. *)
Record AgentEnv := mkAgentEnv {
  client_raises : option string;
  agent_raises : option string
}.

(** [start_mcp_server]: whether the server file exists, whether [Popen]
    raises, the error stream of a child found exited after the two
    seconds of grace ([None] when it is still running), whether entering
    the session raises, and the environment of [create_agent]. *)
Record StartEnv := mkStartEnv {
  file_exists : bool;
  popen_raises : option string;
  exited_early : option string;
  aenter_raises : option string;
  start_agent_env : AgentEnv
}.

(** How [server_process.wait(timeout=5)] ends. *)
Inductive WaitOutcome := WaitExited | TimeoutExpired.

(** [stop_mcp_server]: whether leaving the session raises, whether the
    child has exited by itself before [poll()], whether [os.name] is
    ['nt'], whether sending the termination signal raises, how the wait
    ends, whether [kill()] raises, and the environment of
    [create_agent]. *)
Record StopEnv := mkStopEnv {
  aexit_raises : option string;
  exited_meanwhile : bool;
  os_nt : bool;
  signal_raises : option string;
  wait_outcome : WaitOutcome;
  kill_raises : option string;
  stop_agent_env : AgentEnv
}.

(** *** Primitive steps on processes and sessions *)

(** [subprocess.Popen([sys.executable, MCP_SERVER_FILE], ...)] *)
Definition Popen (outcome : option string) : M nat :=
  may_raise outcome ;;;
  pid <- get (fun w => length (processes w)) ;;
  modify (fun w => set_processes (processes w ++ [Running])%list w) ;;;
  ret pid.

Definition mark_exited (pid : nat) : M unit :=
  modify (fun w => set_processes (update pid Exited (processes w)) w).

(** [server_process.poll() is None], after the child had its chance to
    exit by itself. *)
Definition poll_is_None (pid : nat) (exited_by_itself : bool) : M bool :=
  (if exited_by_itself then mark_exited pid else ret tt) ;;;
  get (fun w => running w pid).

(** [MCPServerStdio(name=..., params=..., cache_tools_list=True)] *)
Definition MCPServerStdio : M nat :=
  sid <- get (fun w => length (sessions w)) ;;
  modify (fun w => set_sessions (sessions w ++ [Built])%list w) ;;;
  ret sid.

(** [await mcp_server.__aenter__()]: the session starts the command of
    its [params], [sys.executable MCP_SERVER_FILE], as a child of its
    own and connects to it; when that raises no child is left. *)
Definition aenter (sid : nat) (outcome : option string) : M unit :=
  may_raise outcome ;;;
  child <- get (fun w => length (processes w)) ;;
  modify (fun w => set_processes (processes w ++ [Running])%list w) ;;;
  modify (fun w => set_sessions (update sid (Entered child) (sessions w)) w).

(** [await mcp_server.__aexit__(None, None, None)]: the session is
    closed and the child it started, if it was entered, is ended. *)
Definition aexit (sid : nat) (outcome : option string) : M unit :=
  may_raise outcome ;;;
  status <- get (fun w => nth_error (sessions w) sid) ;;
  match status with
  | Some (Entered child) => mark_exited child
  | _ => ret tt
  end ;;;
  modify (fun w => set_sessions (update sid Closed (sessions w)) w).

(** *** The functions of the module *)

Definition instructions_with_tools : string :=
  "Use the tools to answer the questions. Maintain context from previous messages in the conversation. You now have access to home automation tools - help users control their smart home devices.".

Definition instructions_without_tools : string :=
  "You are a helpful AI agent. You currently don't have access to any tools or external systems. Explain to users that they need to start the MCP server to access home automation capabilities.".

Definition create_agent (env : AgentEnv) (servers : list nat) : M unit :=
  (* Initialise Azure OpenAI client if not already done *)
  have_client <- get aoai_client ;;
  (if have_client then ret tt
   else may_raise (client_raises env) ;;; modify (set_aoai_client true)) ;;;
  (* Dynamic instructions based on MCP server availability *)
  let instructions :=
    match servers with
    | _ :: _ => instructions_with_tools
    | [] => instructions_without_tools
    end in
  may_raise (agent_raises env) ;;;
  modify (set_agent (Some (mkAgent "Home Assistant" instructions servers))).

Definition initialise_llm (env : AgentEnv) : World -> string * World :=
  try_except
    (create_agent env [] ;;;
     ret "✅ AI Agent initialised successfully! (No MCP tools available yet)")
    (fun e => "❌ Error initialising LLM: " ++ e).

Definition start_mcp_server (env : StartEnv) : World -> string * World :=
  try_except
    ((* Check if server file exists *)
     if negb (file_exists env) then
       ret ("❌ MCP server file not found: " ++ MCP_SERVER_FILE)
     else
       (* Start the MCP server process *)
       pid <- Popen (popen_raises env) ;;
       modify (set_server_process (Some pid)) ;;;
       (* Give server time to start *)
       match exited_early env with
       | Some error_output =>
           mark_exited pid ;;;
           ret ("❌ Server failed to start: " ++ error_output)
       | None =>
           (* Create MCP server connection *)
           sid <- MCPServerStdio ;;
           modify (set_mcp_server (Some sid)) ;;;
           (* Enter the MCP server context *)
           aenter sid (aenter_raises env) ;;;
           (* Update agent with MCP server *)
           create_agent (start_agent_env env) [sid] ;;;
           ret "✅ MCP Server started! AI Agent now has access to home automation tools."
       end)
    (fun e => "❌ Error starting MCP server: " ++ e).

Definition stop_mcp_server (env : StopEnv) : World -> string * World :=
  try_except
    ((* Cleanup MCP server connection *)
     session <- get mcp_server ;;
     match session with
     | Some sid => aexit sid (aexit_raises env) ;;; modify (set_mcp_server None)
     | None => ret tt
     end ;;;
     (* Stop server process *)
     process <- get server_process ;;
     match process with
     | Some pid =>
         alive <- poll_is_None pid (exited_meanwhile env) ;;
         if alive then
           (* terminate() on Windows, send_signal(SIGTERM) elsewhere *)
           may_raise (signal_raises env) ;;;
           match wait_outcome env with
           | WaitExited => mark_exited pid
           | TimeoutExpired => may_raise (kill_raises env) ;;; mark_exited pid
           end
         else ret tt
     | None => ret tt
     end ;;;
     modify (set_server_process None) ;;;
     (* Update agent to work without MCP servers *)
     create_agent (stop_agent_env env) [] ;;;
     ret "🛑 MCP Server stopped. AI Agent now works without tools (general assistance only).")
    (fun e => "❌ Error stopping server: " ++ e).

(** [await Runner.run(starting_agent=agent, input=...)] under
    [trace(workflow_name="Conversation", group_id=current_thread_id)];
    [run] is the answer of the language model, or the exception it ends
    with. *)
Definition Runner_run (run : Agent -> AgentInput -> Result RunResult)
    (a : Agent) (i : AgentInput) : M RunResult :=
  gid <- get current_thread_id ;;
  modify (fun w => set_runner_calls (runner_calls w ++ [mkRunnerCall a i gid])%list w) ;;;
  match run a i with
  | Ok result => ret result
  | Raised msg => raise msg
  end.

(** [process_user_input]; [fresh] is what [gen_trace_id()] yields if it
    is called. The function has no handler: an exception of the runner
    leaves it. *)
Definition process_user_input (run : Agent -> AgentInput -> Result RunResult)
    (fresh : string) (user_input : string) (history : list ChatEntry)
  : M (list ChatEntry * string) :=
  bound <- get agent ;;
  match bound with
  | None =>
      ret ((history ++
              [mkChatEntry "user" user_input "👤";
               mkChatEntry "assistant"
                 "LLM not initialised. Please restart the application." "🤖"])%list,
           "")
  | Some a =>
      (* If this is a new conversation *)
      previous <- get previous_result ;;
      match previous with
      | None => modify (set_current_thread_id (Some fresh))
      | Some _ => ret tt
      end ;;;
      (* Process the input *)
      result <-
        match previous with
        | Some prev =>
            (* Add new user message to the previous conversation *)
            let input_messages :=
              (to_input_list prev ++ [mkMessage "user" user_input])%list in
            Runner_run run a (InputList input_messages)
        | None =>
            (* First message in the conversation *)
            Runner_run run a (InputText user_input)
        end ;;
      (* Update previous result for next turn *)
      modify (set_previous_result (Some result)) ;;;
      ret ((history ++
              [mkChatEntry "user" user_input "👤";
               mkChatEntry "assistant" (final_output result) "🤖"])%list,
           "")
  end.

(** [reset_conversation]; [fresh] is what [gen_trace_id()] yields. *)
Definition reset_conversation (fresh : string)
  : World -> (list ChatEntry * string) * World :=
  fun w =>
    let w := set_previous_result None w in
    let w := set_current_thread_id (Some fresh) w in
    (([], "🔄 Conversation reset successfully!"), w).

(** *** Sequences of lifecycle operations *)

Inductive Op :=
| Start (env : StartEnv)
| Stop (env : StopEnv).

Definition step (op : Op) (w : World) : World :=
  match op with
  | Start env => snd (start_mcp_server env w)
  | Stop env => snd (stop_mcp_server env w)
  end.

Fixpoint run_ops (ops : list Op) (w : World) : World :=
  match ops with
  | [] => w
  | op :: rest => run_ops rest (step op w)
  end.

(** Every start of the sequence is issued while no child is live. *)
Fixpoint starts_when_idle (ops : list Op) (w : World) : Prop :=
  match ops with
  | [] => True
  | op :: rest =>
      match op with
      | Start _ => live_count w = 0%nat
      | Stop _ => True
      end /\ starts_when_idle rest (step op w)
  end.

(** Every live child is named by a handle: it is the one
    [server_process] names, or the one started by the session
    [mcp_server] names. *)
Definition tracked_only (w : World) : Prop :=
  forall pid,
    running w pid = true ->
    server_process w = Some pid
    \/ exists sid,
         mcp_server w = Some sid
         /\ nth_error (sessions w) sid = Some (Entered pid).

(** An environment in which nothing fails. *)
Definition agent_ok : AgentEnv := mkAgentEnv None None.

Definition start_ok : StartEnv := mkStartEnv true None None None agent_ok.

Definition stop_ok : StopEnv :=
  mkStopEnv None false false None WaitExited None agent_ok.

(** *** Leaving the application *)

(** [shutdown]: the session, if there is one, is left with [__aexit__]
    (which may raise: there is no handler) and the event loop is closed. *)
Definition shutdown (aexit_outcome : option string) : M unit :=
  session <- get mcp_server ;;
  match session with
  | Some sid => aexit sid aexit_outcome
  | None => ret tt
  end.

(** *** What holds of the agent that is bound *)

(** The agent, if one is bound, is the "Home Assistant", either with no
    server and the tool-absent instructions or with one session that
    exists and the tool-present instructions. *)
Definition binding_ok (w : World) : Prop :=
  match agent w with
  | None => True
  | Some a =>
      agent_name a = "Home Assistant"
      /\ ((mcp_servers a = [] /\ instructions a = instructions_without_tools)
          \/ (exists sid,
                mcp_servers a = [sid]
                /\ (sid < length (sessions w))%nat
                /\ instructions a = instructions_with_tools))
  end.

(** The status a start and a stop report when nothing failed. *)
Definition started_message : string :=
  "✅ MCP Server started! AI Agent now has access to home automation tools.".

Definition stopped_message : string :=
  "🛑 MCP Server stopped. AI Agent now works without tools (general assistance only).".

(** *** The steps of a stop

    The two middle steps of [stop_mcp_server], named so that they can be
    reasoned about one at a time. *)

(** "Cleanup MCP server connection" *)
Definition close_session (env : StopEnv) : M unit :=
  session <- get mcp_server ;;
  match session with
  | Some sid => aexit sid (aexit_raises env) ;;; modify (set_mcp_server None)
  | None => ret tt
  end.

(** "Stop server process" *)
Definition end_process (env : StopEnv) : M unit :=
  process <- get server_process ;;
  match process with
  | Some pid =>
      alive <- poll_is_None pid (exited_meanwhile env) ;;
      if alive then
        may_raise (signal_raises env) ;;;
        match wait_outcome env with
        | WaitExited => mark_exited pid
        | TimeoutExpired => may_raise (kill_raises env) ;;; mark_exited pid
        end
      else ret tt
  | None => ret tt
  end.

(** [stop_mcp_server] as the sequence of its steps. *)
Definition stop_steps (env : StopEnv) : World -> string * World :=
  try_except
    (close_session env ;;;
     end_process env ;;;
     modify (set_server_process None) ;;;
     create_agent (stop_agent_env env) [] ;;;
     ret stopped_message)
    (fun e => "❌ Error stopping server: " ++ e).

End Client.

(** * Properties *)

(** ** Python values *)

Example str_int_70 : Py.str_int 70 = "70".
Proof. reflexivity. Qed.

Example contains_middle : Py.contains "16" "between 16 and 30" = true.
Proof. reflexivity. Qed.

(** [round(22.0 + 3.0 * 0.2, 1)] is the binary64 value written [22.6]. *)
Example round1_22_6 :
  Py.round1 (22.0 + (25.0 - 22.0) * 0x1.999999999999ap-3)%float
  = 0x1.699999999999ap+4%float.
Proof. vm_compute. reflexivity. Qed.

(** Ties go to the even digit: [round(0.25, 1) == 0.2] and
    [round(-2.75, 1) == -2.8]. *)
Example round1_half_even : Py.round1 0.25%float = 0x1.999999999999ap-3%float.
Proof. vm_compute. reflexivity. Qed.

Example round1_negative : Py.round1 (-2.75)%float = (-0x1.6666666666666p+1)%float.
Proof. vm_compute. reflexivity. Qed.

(** ** The capability server *)

Section ServerProperties.

Import HomeAutomation.

Variable str_float : float -> string.

(** *** The event log *)

Lemma append_bounded_length (e : Event) (log : list Event) :
  length (append_bounded e log) =
  if (length log <? capacity)%nat then S (length log) else length log.
Proof.
  unfold append_bounded.
  assert (Hlen : length (log ++ [e])%list = S (length log))
    by (rewrite length_app; simpl; lia).
  rewrite Hlen.
  destruct (Nat.ltb_spec capacity (S (length log))) as [Hgt | Hle];
    destruct (Nat.ltb_spec (length log) capacity) as [Hlt | Hge]; try lia.
  - destruct log as [| x log]; simpl in *; [unfold capacity in *; lia |].
    rewrite length_app. simpl. lia.
Qed.

Lemma append_bounded_le (e : Event) (log : list Event) :
  (length log <= capacity)%nat -> (length (append_bounded e log) <= capacity)%nat.
Proof.
  intros H. rewrite append_bounded_length.
  destruct (Nat.ltb_spec (length log) capacity); lia.
Qed.

Lemma log_event_devices now device_id act s :
  DEVICES (log_event now device_id act s) = DEVICES s.
Proof. reflexivity. Qed.

Lemma log_event_log now device_id act s :
  EVENT_LOG (log_event now device_id act s)
  = append_bounded (event_of (DEVICES s) (now, device_id, act)) (EVENT_LOG s).
Proof. reflexivity. Qed.

(** Keeping the last [capacity] entries after every append is keeping
    the last [capacity] entries of everything appended. *)
Lemma keep_last_step (e : Event) (log rest : list Event) :
  (length log <= capacity)%nat ->
  skipn (length (append_bounded e log ++ rest)%list - capacity)
        (append_bounded e log ++ rest)%list
  = skipn (length (log ++ e :: rest)%list - capacity) (log ++ e :: rest)%list.
Proof.
  intros Hcap. unfold append_bounded.
  assert (Hlen : length (log ++ [e])%list = S (length log))
    by (rewrite length_app; simpl; lia).
  rewrite Hlen.
  destruct (Nat.ltb_spec capacity (S (length log))) as [Hgt | Hle].
  - assert (Hfull : length log = capacity) by lia.
    destruct log as [| x log]; [discriminate Hfull |].
    simpl tl. simpl length in *.
    rewrite !length_app. simpl length.
    replace (S (length log + S (length rest)) - capacity)%nat
      with (S (length log + S (length rest) - capacity))%nat by lia.
    rewrite <- app_assoc. simpl.
    f_equal. lia.
  - rewrite <- app_assoc. reflexivity.
Qed.

Lemma log_events_devices evs s : DEVICES (log_events evs s) = DEVICES s.
Proof.
  revert s. induction evs as [| [[now device_id] act] evs IH]; intros s; simpl.
  - reflexivity.
  - rewrite IH. apply log_event_devices.
Qed.

Lemma log_events_keep_last evs s :
  (length (EVENT_LOG s) <= capacity)%nat ->
  let all := (EVENT_LOG s ++ map (event_of (DEVICES s)) evs)%list in
  EVENT_LOG (log_events evs s) = skipn (length all - capacity) all.
Proof.
  revert s. induction evs as [| [[now device_id] act] evs IH]; intros s Hcap; simpl.
  - rewrite app_nil_r.
    replace (length (EVENT_LOG s) - capacity)%nat with 0%nat by lia.
    reflexivity.
  - rewrite IH by (rewrite log_event_log; apply append_bounded_le; exact Hcap).
    rewrite log_event_devices, log_event_log.
    apply keep_last_step. exact Hcap.
Qed.

(** After [capacity + 1] insertions into an empty log the first entry
    inserted is gone and the others are there in the order of insertion. *)
Lemma log_events_capacity_plus_one evs s :
  EVENT_LOG s = [] -> length evs = S capacity ->
  EVENT_LOG (log_events evs s) = tl (map (event_of (DEVICES s)) evs).
Proof.
  intros Hempty Hlen.
  rewrite log_events_keep_last by (rewrite Hempty; simpl; lia).
  cbv zeta. rewrite Hempty. simpl app. rewrite length_map, Hlen.
  replace (S capacity - capacity)%nat with 1%nat by lia.
  destruct evs; reflexivity.
Qed.

Lemma recent_events_length s : (length (recent_events s) <= 5)%nat.
Proof. unfold recent_events. rewrite length_skipn. lia. Qed.

(** *** The tools and the log *)

Lemma control_light_rejects now act b s :
  ((0 <=? b) && (b <=? 100))%bool = false ->
  control_light now act (Some b) s
  = ("❌ Error: Brightness must be between 0 and 100", s).
Proof. intros H. unfold control_light. rewrite H. reflexivity. Qed.

Lemma set_temperature_rejects now t s :
  Py.between 16 t 30 = false ->
  set_temperature str_float now t s
  = ("❌ Error: Temperature must be between 16°C and 30°C", s).
Proof. intros H. unfold set_temperature. rewrite H. reflexivity. Qed.

Lemma control_light_logs_once now act bright s :
  brightness_ok bright = true ->
  logs_once now s (control_light now act bright s).
Proof.
  intros H. unfold control_light.
  destruct bright as [b |]; simpl in H; [rewrite H |];
    eexists; (split; [reflexivity | split; reflexivity]).
Qed.

Lemma set_temperature_logs_once now t s :
  Py.between 16 t 30 = true ->
  logs_once now s (set_temperature str_float now t s).
Proof.
  intros H. unfold set_temperature. rewrite H.
  eexists; (split; [reflexivity | split; reflexivity]).
Qed.

Lemma control_door_lock_logs_once now act s :
  logs_once now s (control_door_lock now act s).
Proof. eexists; (split; [reflexivity | split; reflexivity]). Qed.

Lemma activate_scene_log now scene s :
  EVENT_LOG (snd (activate_scene now scene s))
  = append_bounded (mkEvent now "scene_control" ("Scene '" ++ scene ++ "' activated"))
      (EVENT_LOG s)
  /\ is_error (fst (activate_scene now scene s)) = false.
Proof.
  unfold activate_scene.
  destruct (String.eqb scene "evening"); [split; reflexivity |].
  destruct (String.eqb scene "morning"); [split; reflexivity |].
  destruct (String.eqb scene "away"); split; reflexivity.
Qed.

Lemma call_tool_rejects now c s :
  in_domain c = false ->
  is_error (fst (call_tool str_float now c s)) = true
  /\ snd (call_tool str_float now c s) = s.
Proof.
  intros H. destruct c as [a bright | t | a | sc]; simpl in H; try discriminate.
  - destruct bright as [b |]; [| discriminate].
    simpl. rewrite (control_light_rejects _ _ _ _ H). split; reflexivity.
  - simpl. rewrite (set_temperature_rejects _ _ _ H). split; reflexivity.
Qed.

Lemma call_tool_logs_once now c s :
  in_domain c = true ->
  logs_once now s (call_tool str_float now c s).
Proof.
  intros H. destruct c as [a bright | t | a | sc]; simpl in *.
  - apply control_light_logs_once, H.
  - apply set_temperature_logs_once, H.
  - apply control_door_lock_logs_once.
  - destruct (activate_scene_log now (scene_str sc) s) as [Hlog Herr].
    eexists. split; [exact Hlog | split; [reflexivity | exact Herr]].
Qed.

(** A result is error-shaped exactly when an argument is out of its
    domain. *)
Lemma call_tool_error_iff now c s :
  is_error (fst (call_tool str_float now c s)) = negb (in_domain c).
Proof.
  destruct (in_domain c) eqn:H; simpl.
  - destruct (call_tool_logs_once now c s H) as (e & _ & _ & Herr). exact Herr.
  - apply call_tool_rejects, H.
Qed.

Lemma call_tool_log_bounded now c s :
  (length (EVENT_LOG s) <= capacity)%nat ->
  (length (EVENT_LOG (snd (call_tool str_float now c s))) <= capacity)%nat.
Proof.
  intros Hcap. destruct (in_domain c) eqn:H.
  - destruct (call_tool_logs_once now c s H) as (e & Hlog & _).
    rewrite Hlog. apply append_bounded_le, Hcap.
  - destruct (call_tool_rejects now c s H) as [_ Hs]. rewrite Hs. exact Hcap.
Qed.

Lemma run_calls_log_bounded calls s :
  (length (EVENT_LOG s) <= capacity)%nat ->
  (length (EVENT_LOG (run_calls str_float calls s)) <= capacity)%nat.
Proof.
  revert s. induction calls as [| [now c] calls IH]; intros s Hcap; simpl.
  - exact Hcap.
  - apply IH, call_tool_log_bounded, Hcap.
Qed.

Lemma set_temperature_accepts now t s :
  Py.between 16 t 30 = true ->
  let s' := snd (set_temperature str_float now t s) in
  let old := thermostat (DEVICES s) in
  target_temperature (thermostat (DEVICES s')) = t
  /\ temperature (thermostat (DEVICES s'))
     = Py.round1 (temperature old + (t - temperature old) * 0x1.999999999999ap-3)%float
  /\ living_room_light (DEVICES s') = living_room_light (DEVICES s)
  /\ front_door (DEVICES s') = front_door (DEVICES s).
Proof.
  intros H. unfold set_temperature. rewrite H. simpl. repeat split.
Qed.

(** *** Claims about the server *)

(** C3. [set_temperature(45)] is rejected with an error text that
    contains "16" and "30" and leaves the server, hence the target and
    the current temperature, as it was; [set_temperature(25)] on the
    initial server is accepted, sets the target to 25.0 and moves the
    current temperature from 22.0 by 20% of the difference, rounded to
    one decimal: to 22.6. *)
Theorem set_temperature_45_then_25 (now : string) (s : Server) :
  let rejected := set_temperature str_float now 45 s in
  let accepted := set_temperature str_float now 25 initial in
  is_error (fst rejected) = true
  /\ Py.contains "16" (fst rejected) = true
  /\ Py.contains "30" (fst rejected) = true
  /\ snd rejected = s
  /\ is_error (fst accepted) = false
  /\ target_temperature (thermostat (DEVICES (snd accepted))) = 25.0%float
  /\ temperature (thermostat (DEVICES (snd accepted)))
     = Py.round1 (22.0 + (25.0 - 22.0) * 0x1.999999999999ap-3)%float
  /\ temperature (thermostat (DEVICES (snd accepted))) = 0x1.699999999999ap+4%float.
Proof.
  cbv zeta.
  rewrite (set_temperature_rejects now 45 s) by (vm_compute; reflexivity).
  repeat split; try (vm_compute; reflexivity).
Qed.

(** C4. From a log within its capacity, any sequence of logged events
    leaves a log within its capacity that holds the last [capacity]
    entries of the old log followed by the new events, in their order:
    the entries evicted are the oldest ones. The bound also holds after
    any sequence of tool calls. *)
Theorem event_log_bounded_fifo (evs : list (string * string * string))
    (calls : list (string * ToolCall)) (s : Server)
    (Hcap : (length (EVENT_LOG s) <= capacity)%nat) :
  let all := (EVENT_LOG s ++ map (event_of (DEVICES s)) evs)%list in
  (length (EVENT_LOG (log_events evs s)) <= capacity)%nat
  /\ EVENT_LOG (log_events evs s) = skipn (length all - capacity) all
  /\ (length (EVENT_LOG (run_calls str_float calls s)) <= capacity)%nat.
Proof.
  cbv zeta. split; [| split].
  - rewrite (log_events_keep_last evs s Hcap). cbv zeta.
    rewrite length_skipn. lia.
  - apply (log_events_keep_last evs s Hcap).
  - apply run_calls_log_bounded, Hcap.
Qed.

(** C5. A tool call whose arguments have the declared types and one of
    which is outside its domain (a brightness outside 0..100, a target
    outside 16..30) returns an error-shaped result and leaves the whole
    server as it was: no device field changes, the action of the same
    call included, and the event log gets no entry. *)
Theorem rejected_call_changes_nothing (now : string) (c : ToolCall) (s : Server)
    (Hout : in_domain c = false) :
  is_error (fst (call_tool str_float now c s)) = true
  /\ DEVICES (snd (call_tool str_float now c s)) = DEVICES s
  /\ EVENT_LOG (snd (call_tool str_float now c s)) = EVENT_LOG s.
Proof.
  destruct (call_tool_rejects now c s Hout) as [Herr Hs].
  rewrite Hs. auto.
Qed.

(** C8. A tool call that succeeds appends exactly one entry to the event
    log: the new log is the old one followed by the one new entry,
    stamped with the clock of the call, and when the old log was full
    its oldest entry is gone. For a scene activation the one entry is
    the scene-activation entry. *)
Theorem successful_call_logs_once (now : string) (c : ToolCall) (s : Server)
    (Hok : is_error (fst (call_tool str_float now c s)) = false) :
  let s' := snd (call_tool str_float now c s) in
  exists e,
    timestamp e = now
    /\ EVENT_LOG s'
       = (if (length (EVENT_LOG s) <? capacity)%nat
          then EVENT_LOG s ++ [e]
          else tl (EVENT_LOG s) ++ [e])%list
    /\ match c with
       | ActivateScene sc =>
           e = mkEvent now "scene_control" ("Scene '" ++ scene_str sc ++ "' activated")
       | _ => True
       end.
Proof.
  cbv zeta. rewrite call_tool_error_iff in Hok.
  apply negb_false_iff in Hok.
  assert (Hlist : forall e,
             append_bounded e (EVENT_LOG s)
             = (if (length (EVENT_LOG s) <? capacity)%nat
                then EVENT_LOG s ++ [e]
                else tl (EVENT_LOG s) ++ [e])%list).
  { intros e. unfold append_bounded. rewrite length_app. simpl.
    destruct (Nat.ltb_spec capacity (length (EVENT_LOG s) + 1)) as [Hfull | Hroom];
      destruct (Nat.ltb_spec (length (EVENT_LOG s)) capacity) as [Hlt | Hge];
      try lia; try reflexivity.
    destruct (EVENT_LOG s); [unfold capacity in Hge; simpl in Hge; lia | reflexivity]. }
  destruct c as [a bright | t | a | sc].
  - destruct (call_tool_logs_once now (ControlLight a bright) s Hok)
      as (e & Hlog & Hnow & _).
    exists e. rewrite Hlog, Hlist. auto.
  - destruct (call_tool_logs_once now (SetTemperature t) s Hok)
      as (e & Hlog & Hnow & _).
    exists e. rewrite Hlog, Hlist. auto.
  - destruct (call_tool_logs_once now (ControlDoorLock a) s Hok)
      as (e & Hlog & Hnow & _).
    exists e. rewrite Hlog, Hlist. auto.
  - destruct (activate_scene_log now (scene_str sc) s) as [Hlog _].
    eexists. split; [| split; [| reflexivity]]; [reflexivity |].
    simpl snd. rewrite Hlog. apply Hlist.
Qed.

(** C9. With [brightness = 0] the light ends off with brightness 0,
    whatever the action. *)
Theorem brightness_zero_forces_off (now act : string) (s : Server) :
  let l := living_room_light (DEVICES (snd (control_light now act (Some 0) s))) in
  light_state l = "off" /\ brightness l = 0.
Proof.
  unfold control_light. simpl.
  destruct (String.eqb act "on"); [split; reflexivity |].
  destruct (String.eqb act "off"); [split; reflexivity |].
  destruct (String.eqb act "toggle"); split; reflexivity.
Qed.

(** C10. The range [set_temperature] enforces is not kept by every
    mutator: the away scene sets the target to 15.0, which
    [set_temperature] itself rejects, so a server reached from the
    initial one by a tool call has its target outside the range, and the
    range is no invariant of [call_tool]. *)
Theorem away_scene_leaves_range (now : string) :
  let s' := run_calls str_float [(now, ActivateScene Away)] initial in
  target_in_range initial = true
  /\ target_temperature (thermostat (DEVICES s')) = 15.0%float
  /\ target_in_range s' = false
  /\ is_error (fst (set_temperature str_float now 15.0 s')) = true
  /\ (forall s, target_temperature
                  (thermostat (DEVICES (snd (activate_scene now "away" s))))
                = 15.0%float)
  /\ ~ (forall c s, target_in_range s = true ->
                    target_in_range (snd (call_tool str_float now c s)) = true).
Proof.
  cbv zeta. repeat split; try (vm_compute; reflexivity).
  intros H. specialize (H (ActivateScene Away) initial eq_refl).
  vm_compute in H. discriminate H.
Qed.

End ServerProperties.

(** ** The chat client *)

Section ClientProperties.

Import Client.

(** *** The process table *)

Lemma nth_error_update {A : Type} (l : list A) (i j : nat) (x : A) :
  nth_error (update i x l) j
  = if (Nat.eqb i j && (i <? length l)%nat)%bool then Some x else nth_error l j.
Proof.
  revert i j. induction l as [| y l IH]; intros i j; simpl.
  - destruct j; simpl; rewrite andb_false_r; reflexivity.
  - destruct i as [| i], j as [| j]; simpl; try reflexivity.
    rewrite IH. reflexivity.
Qed.

Lemma nth_error_snoc {A : Type} (l : list A) (x : A) (j : nat) :
  nth_error (l ++ [x])%list j
  = if Nat.eqb j (length l) then Some x else nth_error l j.
Proof.
  destruct (Nat.eqb_spec j (length l)) as [-> | Hne].
  - rewrite nth_error_app2 by lia. rewrite Nat.sub_diag. reflexivity.
  - destruct (Nat.lt_ge_cases j (length l)) as [Hlt | Hge].
    + apply nth_error_app1, Hlt.
    + rewrite nth_error_app2 by lia.
      assert (Hnone : nth_error l j = None) by (apply nth_error_None; lia).
      rewrite Hnone.
      destruct (j - length l)%nat as [| k] eqn:Hk; [lia |].
      simpl. destruct k; reflexivity.
Qed.

Lemma live_at_update_exited (table : list ProcStatus) (p pid : nat) :
  live_at (update p Exited table) pid = true ->
  live_at table pid = true /\ Some p <> Some pid.
Proof.
  unfold live_at. rewrite nth_error_update.
  destruct (Nat.eqb_spec p pid) as [-> | Hne]; simpl.
  - destruct (Nat.ltb_spec pid (length table)) as [Hlt | Hge]; [discriminate |].
    assert (Hnone : nth_error table pid = None) by (apply nth_error_None; lia).
    rewrite Hnone. discriminate.
  - intros H. split; [exact H | congruence].
Qed.

Lemma live_at_snoc (table : list ProcStatus) (st : ProcStatus) (pid : nat) :
  live_at (table ++ [st])%list pid
  = if Nat.eqb pid (length table) then is_running st else live_at table pid.
Proof.
  unfold live_at. rewrite nth_error_snoc.
  destruct (Nat.eqb pid (length table)); [destruct st |]; reflexivity.
Qed.

(** No child is live exactly when the count of live children is zero. *)
Lemma filter_running_nil (l : list ProcStatus) :
  filter is_running l = [] <-> forall pid, nth_error l pid <> Some Running.
Proof.
  induction l as [| p l IH]; simpl.
  - split; [intros _ [| pid]; discriminate | reflexivity].
  - destruct p; simpl.
    + split; [discriminate | intros H; exfalso; apply (H O); reflexivity].
    + rewrite IH. split.
      * intros H [| pid]; [discriminate | apply H].
      * intros H pid. apply (H (S pid)).
Qed.

Lemma live_count_zero w :
  live_count w = 0%nat <-> forall pid, running w pid = false.
Proof.
  unfold live_count, running, live_at.
  rewrite length_zero_iff_nil, filter_running_nil.
  split; intros H pid; specialize (H pid).
  - destruct (nth_error (processes w) pid) as [[|] |]; congruence.
  - destruct (nth_error (processes w) pid) as [[|] |]; congruence.
Qed.

(** There are no more live children than positions they may have. *)
Lemma filter_running_among (l : list ProcStatus) (allowed : list nat) :
  (forall pid, nth_error l pid = Some Running -> In pid allowed) ->
  (length (filter is_running l) <= length allowed)%nat.
Proof.
  revert allowed. induction l as [| p l IH]; intros allowed Hin; simpl.
  - lia.
  - assert (Hrest : forall pid, nth_error l pid = Some Running ->
                                In pid (map Nat.pred (remove Nat.eq_dec 0%nat allowed))).
    { intros pid Hpid.
      change pid with (Nat.pred (S pid)). apply in_map.
      apply in_in_remove; [discriminate | apply Hin; exact Hpid]. }
    specialize (IH _ Hrest). rewrite length_map in IH.
    destruct p; simpl.
    + assert (H0 : In 0%nat allowed) by (apply Hin; reflexivity).
      pose proof (remove_length_lt Nat.eq_dec allowed 0%nat H0). lia.
    + pose proof (remove_length_le Nat.eq_dec allowed 0%nat). lia.
Qed.

Lemma tracked_only_live_count w :
  tracked_only w -> (live_count w <= 2)%nat.
Proof.
  intros Htracked.
  set (allowed :=
         (match server_process w with Some p => [p] | None => [] end
          ++ match mcp_server w with
             | Some sid =>
                 match nth_error (sessions w) sid with
                 | Some (Entered child) => [child]
                 | _ => []
                 end
             | None => []
             end)%list).
  assert (Hlen : (length allowed <= 2)%nat).
  { unfold allowed. rewrite length_app.
    destruct (server_process w), (mcp_server w) as [sid |]; simpl; try lia.
    - destruct (nth_error (sessions w) sid) as [[| child |] |]; simpl; lia.
    - destruct (nth_error (sessions w) sid) as [[| child |] |]; simpl; lia. }
  apply Nat.le_trans with (length allowed); [| exact Hlen].
  apply filter_running_among. intros pid Hpid.
  assert (Hrun : running w pid = true)
    by (unfold running, live_at; rewrite Hpid; reflexivity).
  unfold allowed. apply in_or_app.
  destruct (Htracked pid Hrun) as [Hsp | (sid & Hms & Hst)].
  - left. rewrite Hsp. left. reflexivity.
  - right. rewrite Hms, Hst. left. reflexivity.
Qed.

Lemma update_snoc {A : Type} (l : list A) (x y : A) :
  update (length l) x (l ++ [y])%list = (l ++ [x])%list.
Proof. induction l as [| z l IH]; simpl; [| rewrite IH]; reflexivity. Qed.

(** *** What a start and a stop do to the process table *)

Ltac unfold_client :=
  cbv [start_mcp_server stop_mcp_server initialise_llm create_agent shutdown
       close_session end_process stop_steps
       process_user_input Runner_run Popen MCPServerStdio aenter aexit
       mark_exited poll_is_None try_except bind ret raise modify get may_raise
       set_agent set_mcp_server set_server_process set_current_thread_id
       set_previous_result set_aoai_client set_processes set_sessions
       set_runner_calls running started_message stopped_message
       agent mcp_server server_process current_thread_id previous_result
       aoai_client processes sessions runner_calls fst snd].

Lemma live_at_exited (table : list ProcStatus) (p : nat) :
  live_at (update p Exited table) p = false.
Proof.
  destruct (live_at (update p Exited table) p) eqn:H; [| reflexivity].
  apply live_at_update_exited in H. destruct H as [_ Hne]. congruence.
Qed.

Lemma live_at_update_mono (table : list ProcStatus) (p pid : nat) :
  live_at (update p Exited table) pid = true -> live_at table pid = true.
Proof. intros H. apply live_at_update_exited in H. apply H. Qed.

Lemma length_update {A : Type} (i : nat) (x : A) (l : list A) :
  length (update i x l) = length l.
Proof.
  revert i. induction l as [| y l IH]; intros [| i]; simpl;
    try rewrite IH; reflexivity.
Qed.

(** *** A stop, step by step *)

Lemma stop_mcp_server_steps env : stop_mcp_server env = stop_steps env.
Proof. reflexivity. Qed.

(** Leaving the session: it raises and changes nothing, or it drops the
    session handle, closes the session and ends the child the session
    started. *)
Lemma close_session_cases env w :
  match close_session env w with
  | (Raised e, w1) => w1 = w
  | (Ok _, w1) =>
      exists table ss,
        w1 = set_sessions ss (set_processes table (set_mcp_server None w))
        /\ length ss = length (sessions w)
        /\ (forall pid, live_at table pid = true -> live_at (processes w) pid = true)
        /\ (forall sid child,
              mcp_server w = Some sid ->
              nth_error (sessions w) sid = Some (Entered child) ->
              live_at table child = false)
        /\ (mcp_server w = None -> table = processes w /\ ss = sessions w)
  end.
Proof.
  destruct env as [ar em nt sr wo kr ae], w as [a ms sp ct prv cl ps ss rc].
  destruct ms as [sid |], ar as [msg |]; unfold_client; simpl; try reflexivity.
  - destruct (nth_error ss sid) as [[| child |] |] eqn:Hst; simpl;
      eexists; eexists; (split; [reflexivity |]);
      rewrite length_update; (split; [reflexivity |]);
      (split; [intros pid Hpid; try exact Hpid; eapply live_at_update_mono, Hpid |]);
      (split; [| discriminate]);
      intros sid' child' Hsid Hchild; injection Hsid as <-;
      rewrite Hst in Hchild; try discriminate Hchild.
    injection Hchild as <-. apply live_at_exited.
  - eexists; eexists; repeat split; auto; discriminate.
  - eexists; eexists; repeat split; auto; discriminate.
Qed.

(** Ending the process: it raises and changes nothing, or it changes at
    most the process table, in which the child the handle names is then
    not live. *)
Lemma end_process_cases env w :
  match end_process env w with
  | (Raised e, w1) => w1 = w
  | (Ok _, w1) =>
      exists table,
        w1 = set_processes table w
        /\ (forall pid, live_at table pid = true -> live_at (processes w) pid = true)
        /\ (forall pid, server_process w = Some pid -> live_at table pid = false)
        /\ (server_process w = None -> table = processes w)
  end.
Proof.
  destruct env as [ar em nt sr wo kr ae], w as [a ms sp ct prv cl ps ss rc].
  destruct sp as [p |]; unfold_client; simpl;
    [| eexists; repeat split; auto; discriminate].
  destruct em; simpl.
  - rewrite live_at_exited. eexists. split; [reflexivity |].
    split; [intros pid; apply live_at_update_mono |].
    split; [| discriminate].
    intros pid Hpid. injection Hpid as <-. apply live_at_exited.
  - destruct (live_at ps p) eqn:Halive; simpl.
    + destruct sr, wo, kr; simpl; try reflexivity;
        (eexists; split; [reflexivity |];
         split; [intros pid; apply live_at_update_mono |];
         split; [| discriminate];
         intros pid Hpid; injection Hpid as <-; apply live_at_exited).
    + eexists. split; [reflexivity |]. split; [auto |].
      split; [| discriminate].
      intros pid Hpid. injection Hpid as <-. exact Halive.
Qed.

(** Building the agent: it raises, leaving the agent, or binds the new
    agent; besides it can only create the Azure client. *)
Lemma create_agent_cases env servers w :
  match create_agent env servers w with
  | (Raised e, w1) => exists client, w1 = set_aoai_client client w
  | (Ok _, w1) =>
      w1 = set_agent
             (Some (mkAgent "Home Assistant"
                      match servers with
                      | _ :: _ => instructions_with_tools
                      | [] => instructions_without_tools
                      end servers))
             (set_aoai_client true w)
  end.
Proof.
  destruct env as [cr agr], w as [a ms sp ct prv cl ps ss rc].
  destruct cl, cr, agr; unfold_client; simpl;
    try reflexivity; eexists; reflexivity.
Qed.

Lemma stop_mcp_server_unfold env w :
  stop_mcp_server env w =
  match close_session env w with
  | (Raised e, w1) => ("❌ Error stopping server: " ++ e, w1)
  | (Ok _, w1) =>
      match end_process env w1 with
      | (Raised e, w2) => ("❌ Error stopping server: " ++ e, w2)
      | (Ok _, w2) =>
          match create_agent (stop_agent_env env) [] (set_server_process None w2) with
          | (Raised e, w3) => ("❌ Error stopping server: " ++ e, w3)
          | (Ok _, w3) => (stopped_message, w3)
          end
      end
  end.
Proof.
  rewrite stop_mcp_server_steps. unfold stop_steps, try_except, bind, modify, ret.
  destruct (close_session env w) as [[[] | e1] w1]; [| reflexivity].
  destruct (end_process env w1) as [[[] | e2] w2]; [| reflexivity].
  destruct (create_agent (stop_agent_env env) [] (set_server_process None w2))
    as [[[] | e3] w3]; reflexivity.
Qed.

(** What a stop leaves, by how far it got: it raises at once and changes
    nothing; or the session is left, with its child ended, and then the
    process step raises; or the process handle is dropped too, with its
    child not live, and then the agent is rebound or building it
    raises. *)
Lemma stop_cases env w :
  let out := stop_mcp_server env w in
  let w' := snd out in
  previous_result w' = previous_result w
  /\ current_thread_id w' = current_thread_id w
  /\ runner_calls w' = runner_calls w
  /\ length (sessions w') = length (sessions w)
  /\ (forall pid, running w' pid = true -> running w pid = true)
  /\ ((w' = w /\ exists e, fst out = "❌ Error stopping server: " ++ e)
      \/ (mcp_server w' = None
          /\ (forall sid child,
                mcp_server w = Some sid ->
                nth_error (sessions w) sid = Some (Entered child) ->
                running w' child = false)
          /\ ((server_process w' = server_process w
               /\ agent w' = agent w
               /\ exists e, fst out = "❌ Error stopping server: " ++ e)
              \/ (server_process w' = None
                  /\ (forall pid, server_process w = Some pid ->
                                  running w' pid = false)
                  /\ ((fst out = stopped_message
                       /\ agent w'
                          = Some (mkAgent "Home Assistant"
                                    instructions_without_tools [])
                       /\ aoai_client w' = true)
                      \/ (agent w' = agent w
                          /\ exists e,
                               fst out = "❌ Error stopping server: " ++ e)))))).
Proof.
  cbv zeta. rewrite stop_mcp_server_unfold. unfold running.
  pose proof (close_session_cases env w) as H1.
  destruct (close_session env w) as [[[] | e1] w1].
  2: { subst w1. simpl. do 5 (split; [solve [auto] |]).
       left. split; [reflexivity | eauto]. }
  destruct H1 as (t1 & ss1 & -> & Hlen & Hmono1 & Hchild & _).
  match goal with
  | |- context [end_process env ?x] =>
      pose proof (end_process_cases env x) as H2;
      destruct (end_process env x) as [[[] | e2] w2]
  end.
  2: { subst w2. destruct w as [a ms sp ct prv cl ps ss rc]. simpl in *.
       do 5 (split; [solve [auto] |]).
       right. split; [reflexivity | split; [exact Hchild |]].
       left. split; [reflexivity | split; [reflexivity | eauto]]. }
  destruct H2 as (t2 & -> & Hmono2 & Hdead & _).
  match goal with
  | |- context [create_agent ?e ?l ?x] =>
      pose proof (create_agent_cases e l x) as H3;
      destruct (create_agent e l x) as [[[] | e3] w3]
  end.
  - subst w3. destruct w as [a ms sp ct prv cl ps ss rc]. simpl in *.
    do 5 (split; [solve [auto] |]).
    right. split; [reflexivity | split; [|]].
    + intros sid child Hsid Hst.
      destruct (live_at t2 child) eqn:Hlive; [| reflexivity].
      apply Hmono2 in Hlive. rewrite (Hchild sid child Hsid Hst) in Hlive.
      discriminate.
    + right. split; [reflexivity | split; [exact Hdead |]].
      left. repeat split.
  - destruct H3 as (client & ->).
    destruct w as [a ms sp ct prv cl ps ss rc]. simpl in *.
    do 5 (split; [solve [auto] |]).
    right. split; [reflexivity | split; [|]].
    + intros sid child Hsid Hst.
      destruct (live_at t2 child) eqn:Hlive; [| reflexivity].
      apply Hmono2 in Hlive. rewrite (Hchild sid child Hsid Hst) in Hlive.
      discriminate.
    + right. split; [reflexivity | split; [exact Hdead |]].
      right. split; [reflexivity | eauto].
Qed.

(** *** A start *)

Lemma live_at_app_l (table extra : list ProcStatus) (pid : nat) :
  live_at table pid = true -> live_at (table ++ extra)%list pid = true.
Proof.
  unfold live_at. intros H.
  destruct (Nat.lt_ge_cases pid (length table)) as [Hlt | Hge].
  - rewrite nth_error_app1 by exact Hlt. exact H.
  - assert (Hnone : nth_error table pid = None) by (apply nth_error_None; lia).
    rewrite Hnone in H. discriminate H.
Qed.

(** A start only adds children at the end of the table. *)
Lemma start_processes env w :
  exists extra,
    processes (snd (start_mcp_server env w)) = (processes w ++ extra)%list.
Proof.
  destruct env as [fe pr ee ar [cr agr]], w as [a ms sp ct prv cl ps ss rc].
  destruct fe, pr, ee, ar, cl, cr, agr; unfold_client; simpl;
    rewrite ?update_snoc, <- ?app_assoc;
    first [ exists []; rewrite app_nil_r; reflexivity
          | eexists; reflexivity ].
Qed.

(** A start stops nothing: a child that was live is still live. *)
Lemma start_keeps_running env w pid :
  running w pid = true -> running (snd (start_mcp_server env w)) pid = true.
Proof.
  intros Hpid. unfold running in *.
  destruct (start_processes env w) as (extra & Hadd).
  rewrite Hadd. apply live_at_app_l, Hpid.
Qed.

Lemma start_tracked_only env w :
  live_count w = 0%nat -> tracked_only (snd (start_mcp_server env w)).
Proof.
  intros Hidle pid. rewrite live_count_zero in Hidle. revert Hidle.
  unfold tracked_only.
  destruct env as [fe pr ee ar [cr agr]], w as [a ms sp ct prv cl ps ss rc].
  destruct fe, pr, ee, ar, cl, cr, agr; unfold_client; simpl;
    rewrite ?update_snoc, ?live_at_snoc, ?length_app; simpl;
    intros Hidle Hpid;
    repeat match type of Hpid with
           | (if Nat.eqb ?x ?y then _ else _) = true =>
               destruct (Nat.eqb_spec x y) as [-> | _]
           end;
    try discriminate Hpid;
    try (rewrite Hidle in Hpid; discriminate Hpid);
    try (left; f_equal; lia);
    right; eexists; (split; [reflexivity |]);
    rewrite nth_error_snoc, Nat.eqb_refl; reflexivity.
Qed.

Lemma stop_tracked_only env w :
  tracked_only w -> tracked_only (snd (stop_mcp_server env w)).
Proof.
  intros Htracked pid Hpid.
  destruct (stop_cases env w) as (_ & _ & _ & _ & Hmono & Hcases).
  destruct Hcases as [[Hsame _] | (Hms & Hchild & Hrest)].
  - rewrite Hsame in *. apply Htracked, Hpid.
  - destruct (Htracked pid (Hmono pid Hpid)) as [Hsp | (sid & Hsid & Hst)].
    + destruct Hrest as [(Hsame & _) | (_ & Hdead & _)].
      * left. rewrite Hsame. exact Hsp.
      * rewrite (Hdead pid Hsp) in Hpid. discriminate Hpid.
    + rewrite (Hchild sid pid Hsid Hst) in Hpid. discriminate Hpid.
Qed.

Lemma run_ops_tracked_only ops w :
  tracked_only w -> starts_when_idle ops w -> tracked_only (run_ops ops w).
Proof.
  revert w. induction ops as [| op ops IH]; intros w Htracked Hidle; simpl.
  - exact Htracked.
  - destruct Hidle as [Hop Hrest]. apply IH; [| exact Hrest].
    destruct op as [env | env]; simpl.
    + apply start_tracked_only, Hop.
    + apply stop_tracked_only, Htracked.
Qed.

(** *** Claims about the lifecycle *)

(** C1, as the code has it. A start that succeeds leaves two server
    children, the one it spawns with [Popen] and the one the session
    starts when it is entered. In a sequence of starts and stops in
    which every start is issued while no child is live, at most these
    two are live afterwards, and each is named by a handle: by
    [server_process] or by the session [mcp_server] names. A start
    itself stops nothing: every child that was live before it is live
    after it. *)
Theorem live_children_when_starts_are_idle (ops : list Op) (w : World)
    (Htracked : tracked_only w) (Hidle : starts_when_idle ops w) :
  (live_count (run_ops ops w) <= 2)%nat
  /\ tracked_only (run_ops ops w)
  /\ (forall env w0 pid,
        running w0 pid = true ->
        running (snd (start_mcp_server env w0)) pid = true).
Proof.
  assert (H := run_ops_tracked_only ops w Htracked Hidle).
  split; [apply tracked_only_live_count, H | split; [exact H |]].
  intros env w0 pid. apply start_keeps_running.
Qed.

(** When leaving the session raises, the handler reports it and the
    world is as it was before the stop. *)
Lemma stop_session_failure_changes_nothing env w sid msg :
  mcp_server w = Some sid -> aexit_raises env = Some msg ->
  stop_mcp_server env w = ("❌ Error stopping server: " ++ msg, w).
Proof.
  destruct env as [ar em nt sr wo kr ae], w as [a ms sp ct prv cl ps ss rc].
  simpl. intros -> ->. reflexivity.
Qed.

(** C2, as the code has it. When a stop reports that the server was
    stopped, that is when no step of it raised (a graceful wait that
    times out is answered by a kill and raises nothing), both handles
    are cleared, the child the handle named is not live, and the agent
    is rebound with the tool-absent instructions and an empty server
    list. *)
Theorem stop_success_clears_and_rebinds (env : StopEnv) (w : World)
    (Hok : fst (stop_mcp_server env w)
           = "🛑 MCP Server stopped. AI Agent now works without tools (general assistance only).") :
  let w' := snd (stop_mcp_server env w) in
  mcp_server w' = None
  /\ server_process w' = None
  /\ agent w' = Some (mkAgent "Home Assistant" instructions_without_tools [])
  /\ match server_process w with
     | Some pid => running w' pid = false
     | None => True
     end.
Proof.
  cbv zeta.
  destruct (stop_cases env w) as (_ & _ & _ & _ & _ & Hcases).
  destruct Hcases as [[_ (e & He)] | (Hms & _ & Hrest)];
    [rewrite He in Hok; discriminate Hok |].
  destruct Hrest as [(_ & _ & e & He) | (Hsp & Hdead & Hagent)];
    [rewrite He in Hok; discriminate Hok |].
  destruct Hagent as [(_ & Hagent & _) | (_ & e & He)];
    [| rewrite He in Hok; discriminate Hok].
  repeat split; try assumption.
  destruct (server_process w) as [pid |]; [apply Hdead; reflexivity | exact I].
Qed.

(** *** Claims about the turn protocol *)

(** The input the runner is given in a turn of an unbroken
    conversation: the items of the previous result and the new user
    message. *)
Lemma turn_continues_previous run fresh user_input history w a prev :
  agent w = Some a -> previous_result w = Some prev ->
  runner_calls (snd (process_user_input run fresh user_input history w))
  = (runner_calls w ++
       [mkRunnerCall a
          (InputList (to_input_list prev ++ [mkMessage "user" user_input])%list)
          (current_thread_id w)])%list.
Proof.
  destruct w as [ag ms sp ct prv cl ps ss rc]. simpl.
  intros -> ->. unfold_client. simpl.
  destruct (run a _); reflexivity.
Qed.

(** C6. After a reset the continuation state is empty, and the next
    turn calls the runner, if an agent is bound, once and with the raw
    text of the new message as its whole input: nothing of an earlier
    turn is in it. With no agent bound the runner is not called. *)
Theorem reset_then_turn_sends_only_new_text
    (run : Agent -> AgentInput -> Result RunResult)
    (fresh fresh' user_input : string) (history : list ChatEntry) (w : World) :
  let w1 := snd (reset_conversation fresh w) in
  let w2 := snd (process_user_input run fresh' user_input history w1) in
  previous_result w1 = None
  /\ runner_calls w2
     = (runner_calls w ++
          match agent w with
          | Some a => [mkRunnerCall a (InputText user_input) (Some fresh')]
          | None => []
          end)%list.
Proof.
  destruct w as [ag ms sp ct prv cl ps ss rc].
  unfold reset_conversation. unfold_client. simpl.
  split; [reflexivity |].
  destruct ag as [a |]; simpl.
  - destruct (run a (InputText user_input)); reflexivity.
  - rewrite app_nil_r. reflexivity.
Qed.

(** C7. With no agent bound a turn returns the history extended by the
    user message and the fixed answer, clears the text box, and leaves
    the world as it was: the continuation state and the session
    identifier are untouched and the runner is not called. *)
Theorem unbound_agent_short_circuits
    (run : Agent -> AgentInput -> Result RunResult)
    (fresh user_input : string) (history : list ChatEntry) (w : World)
    (Hunbound : agent w = None) :
  process_user_input run fresh user_input history w
  = (Ok ((history ++
            [mkChatEntry "user" user_input "👤";
             mkChatEntry "assistant"
               "LLM not initialised. Please restart the application." "🤖"])%list,
         ""),
     w).
Proof.
  destruct w as [ag ms sp ct prv cl ps ss rc]. simpl in Hunbound. subst ag.
  reflexivity.
Qed.

End ClientProperties.



(** C1 fails as stated: one start, in an environment where nothing
    fails, leaves two live server children, the one spawned with [Popen]
    and the one the session started; a second start stops neither: it
    adds two more, and only these are named by the handles. *)
Lemma starts_leave_children_running :
  let w1 := Client.run_ops [Client.Start Client.start_ok] Client.initial in
  let w2 := Client.run_ops [Client.Start Client.start_ok; Client.Start Client.start_ok]
              Client.initial in
  Client.live_count w1 = 2%nat
  /\ Client.live_count w2 = 4%nat
  /\ Client.running w2 0 = true
  /\ Client.running w2 1 = true
  /\ nth_error (Client.sessions w2) 0 = Some (Client.Entered 1)
  /\ Client.server_process w2 = Some 2%nat
  /\ Client.mcp_server w2 = Some 1%nat
  /\ ~ (Client.live_count w1 <= 1)%nat
  /\ ~ (Client.live_count w2 <= 1)%nat.
Proof.
  vm_compute. repeat split; try reflexivity; intros H; lia.
Qed.

(** C2 fails as stated: when leaving the session raises during a stop
    that follows a successful start, the stop reports the error and both
    handles and the agent's binding to the session are as before. *)
Lemma stop_failure_keeps_handles :
  let w := snd (Client.start_mcp_server Client.start_ok Client.initial) in
  let env :=
    Client.mkStopEnv (Some "session close failed") false false None
      Client.WaitExited None Client.agent_ok in
  let out := Client.stop_mcp_server env w in
  fst out = "❌ Error stopping server: session close failed"
  /\ Client.mcp_server (snd out) = Some 0%nat
  /\ Client.server_process (snd out) = Some 0%nat
  /\ Client.running (snd out) 0 = true
  /\ Client.agent (snd out)
     = Some (Client.mkAgent "Home Assistant" Client.instructions_with_tools [0%nat])
  /\ ~ (Client.mcp_server (snd out) = None
        /\ Client.server_process (snd out) = None
        /\ exists a, Client.agent (snd out) = Some a /\ Client.mcp_servers a = []).
Proof.
  vm_compute. repeat split; try reflexivity.
  intros [H _]. discriminate H.
Qed.

(** ** The claims at concrete inputs *)

(** C4 at eleven events logged into the empty log of the initial server:
    the first is gone, the other ten are there in order. *)
Lemma event_log_bounded_fifo_witness :
  let evs :=
    map (fun n => (Py.str_int (Z.of_nat n), "front_door", "Door locked")) (seq 0 11) in
  (length (HomeAutomation.EVENT_LOG HomeAutomation.initial)
   <= HomeAutomation.capacity)%nat
  /\ HomeAutomation.EVENT_LOG (HomeAutomation.log_events evs HomeAutomation.initial)
     = tl (map (HomeAutomation.event_of HomeAutomation.initial_devices) evs).
Proof.
  cbv zeta.
  assert (Hcap : (length (HomeAutomation.EVENT_LOG HomeAutomation.initial)
                  <= HomeAutomation.capacity)%nat)
    by (unfold HomeAutomation.capacity; simpl; lia).
  split; [exact Hcap |].
  exact (proj1 (proj2 (event_log_bounded_fifo (fun _ => "")
           (map (fun n => (Py.str_int (Z.of_nat n), "front_door", "Door locked"))
              (seq 0 11))
           [] HomeAutomation.initial Hcap))).
Defined.

(** C5 at [control_light("on", 150)] on the initial server. *)
Lemma rejected_call_changes_nothing_witness :
  HomeAutomation.in_domain
    (HomeAutomation.ControlLight HomeAutomation.LightOn (Some 150)) = false
  /\ HomeAutomation.is_error
       (fst (HomeAutomation.call_tool (fun _ => "") "2025-06-01 08:00:00"
               (HomeAutomation.ControlLight HomeAutomation.LightOn (Some 150))
               HomeAutomation.initial)) = true
  /\ HomeAutomation.DEVICES
       (snd (HomeAutomation.call_tool (fun _ => "") "2025-06-01 08:00:00"
               (HomeAutomation.ControlLight HomeAutomation.LightOn (Some 150))
               HomeAutomation.initial))
     = HomeAutomation.DEVICES HomeAutomation.initial
  /\ HomeAutomation.EVENT_LOG
       (snd (HomeAutomation.call_tool (fun _ => "") "2025-06-01 08:00:00"
               (HomeAutomation.ControlLight HomeAutomation.LightOn (Some 150))
               HomeAutomation.initial))
     = HomeAutomation.EVENT_LOG HomeAutomation.initial.
Proof.
  split; [reflexivity |].
  apply (rejected_call_changes_nothing (fun _ => "") "2025-06-01 08:00:00"
           (HomeAutomation.ControlLight HomeAutomation.LightOn (Some 150))
           HomeAutomation.initial).
  reflexivity.
Defined.

(** C8 at the evening scene on a server whose log is full: the new log
    is the old one without its oldest entry, followed by the one
    scene-activation entry. *)
Lemma successful_call_logs_once_witness :
  let full :=
    HomeAutomation.log_events
      (map (fun n => (Py.str_int (Z.of_nat n), "front_door", "Door locked")) (seq 0 10))
      HomeAutomation.initial in
  length (HomeAutomation.EVENT_LOG full) = HomeAutomation.capacity
  /\ HomeAutomation.is_error
       (fst (HomeAutomation.call_tool (fun _ => "") "2025-06-01 19:30:00"
               (HomeAutomation.ActivateScene HomeAutomation.Evening) full)) = false
  /\ HomeAutomation.EVENT_LOG
       (snd (HomeAutomation.call_tool (fun _ => "") "2025-06-01 19:30:00"
               (HomeAutomation.ActivateScene HomeAutomation.Evening) full))
     = (tl (HomeAutomation.EVENT_LOG full)
        ++ [HomeAutomation.mkEvent "2025-06-01 19:30:00" "scene_control"
              "Scene 'evening' activated"])%list.
Proof.
  cbv zeta.
  split; [reflexivity |].
  assert (Hok : HomeAutomation.is_error
                  (fst (HomeAutomation.call_tool (fun _ => "") "2025-06-01 19:30:00"
                          (HomeAutomation.ActivateScene HomeAutomation.Evening)
                          (HomeAutomation.log_events
                             (map (fun n =>
                                     (Py.str_int (Z.of_nat n), "front_door", "Door locked"))
                                (seq 0 10))
                             HomeAutomation.initial))) = false)
    by reflexivity.
  split; [exact Hok |].
  destruct (successful_call_logs_once (fun _ => "") "2025-06-01 19:30:00"
              (HomeAutomation.ActivateScene HomeAutomation.Evening) _ Hok)
    as (e & _ & Hlog & He).
  rewrite Hlog, He. reflexivity.
Defined.

(** C1 at start, stop, start from the initial world, nothing failing. *)
Lemma live_children_when_starts_are_idle_witness :
  let ops := [Client.Start Client.start_ok; Client.Stop Client.stop_ok;
              Client.Start Client.start_ok] in
  Client.tracked_only Client.initial
  /\ Client.starts_when_idle ops Client.initial
  /\ (Client.live_count (Client.run_ops ops Client.initial) <= 2)%nat.
Proof.
  cbv zeta.
  assert (Htracked : Client.tracked_only Client.initial)
    by (intros [| pid] H; discriminate H).
  assert (Hidle : Client.starts_when_idle
                    [Client.Start Client.start_ok; Client.Stop Client.stop_ok;
                     Client.Start Client.start_ok] Client.initial)
    by (vm_compute; repeat split; reflexivity).
  split; [exact Htracked | split; [exact Hidle |]].
  exact (proj1 (live_children_when_starts_are_idle _ _ Htracked Hidle)).
Defined.

(** C2 at a stop whose graceful wait times out, after a successful
    start. *)
Lemma stop_success_clears_and_rebinds_witness :
  let w := snd (Client.start_mcp_server Client.start_ok Client.initial) in
  let env :=
    Client.mkStopEnv None false false None Client.TimeoutExpired None Client.agent_ok in
  fst (Client.stop_mcp_server env w)
  = "🛑 MCP Server stopped. AI Agent now works without tools (general assistance only)."
  /\ Client.mcp_server (snd (Client.stop_mcp_server env w)) = None
  /\ Client.server_process (snd (Client.stop_mcp_server env w)) = None
  /\ Client.agent (snd (Client.stop_mcp_server env w))
     = Some (Client.mkAgent "Home Assistant" Client.instructions_without_tools [])
  /\ Client.running (snd (Client.stop_mcp_server env w)) 0 = false.
Proof.
  cbv zeta.
  assert (Hok : fst (Client.stop_mcp_server
                       (Client.mkStopEnv None false false None Client.TimeoutExpired
                          None Client.agent_ok)
                       (snd (Client.start_mcp_server Client.start_ok Client.initial)))
                = "🛑 MCP Server stopped. AI Agent now works without tools (general assistance only).")
    by reflexivity.
  split; [exact Hok |].
  exact (stop_success_clears_and_rebinds _ _ Hok).
Defined.

(** C7 at the initial world, where no agent is bound yet. *)
Lemma unbound_agent_short_circuits_witness :
  Client.agent Client.initial = None
  /\ Client.process_user_input (fun _ _ => Client.Raised "unreachable")
       "trace_1" "turn on the light" [] Client.initial
     = (Client.Ok
          ([Client.mkChatEntry "user" "turn on the light" "👤";
            Client.mkChatEntry "assistant"
              "LLM not initialised. Please restart the application." "🤖"],
           ""),
        Client.initial).
Proof.
  split; [reflexivity |].
  apply (unbound_agent_short_circuits (fun _ _ => Client.Raised "unreachable")
           "trace_1" "turn on the light" [] Client.initial).
  reflexivity.
Defined.

(** * Further properties of the server *)

Section ServerFurther.

Import HomeAutomation.

Variable str_float : float -> string.

(** ** One tool, one device *)

(** X1. [control_light] touches only the light, [set_temperature] only
    the thermostat and [control_door_lock] only the lock, whatever their
    arguments. *)
Theorem single_device_tools_frame (now act : string) (bright : option Z)
    (target : float) (s : Server) :
  let after_light := DEVICES (snd (control_light now act bright s)) in
  let after_temp := DEVICES (snd (set_temperature str_float now target s)) in
  let after_lock := DEVICES (snd (control_door_lock now act s)) in
  (thermostat after_light = thermostat (DEVICES s)
   /\ front_door after_light = front_door (DEVICES s))
  /\ (living_room_light after_temp = living_room_light (DEVICES s)
      /\ front_door after_temp = front_door (DEVICES s))
  /\ (living_room_light after_lock = living_room_light (DEVICES s)
      /\ thermostat after_lock = thermostat (DEVICES s)).
Proof.
  cbv zeta. split; [| split].
  - unfold control_light.
    destruct bright as [b |]; [destruct ((0 <=? b) && (b <=? 100))%bool |];
      split; reflexivity.
  - unfold set_temperature.
    destruct (Py.between 16 target 30); split; reflexivity.
  - split; reflexivity.
Qed.

(** X2. An accepted [control_light] stores the brightness it is given
    whatever the action (also when it turns the light off) and keeps the
    old one when given none; "off" ends off, and "on" ends on unless the
    brightness given is 0. *)
Theorem control_light_effect (now act : string) (bright : option Z) (s : Server)
    (Hok : brightness_ok bright = true) :
  let l := living_room_light (DEVICES s) in
  let l' := living_room_light (DEVICES (snd (control_light now act bright s))) in
  brightness l' = match bright with Some b => b | None => brightness l end
  /\ (act = "off" -> light_state l' = "off")
  /\ (act = "on" -> bright <> Some 0 -> light_state l' = "on")
  /\ light_name l' = light_name l.
Proof.
  cbv zeta. unfold control_light.
  destruct bright as [b |]; simpl in Hok; [rewrite Hok |].
  - repeat split.
    + destruct (String.eqb act "on"), (String.eqb act "off"),
        (String.eqb act "toggle"), b; reflexivity.
    + intros ->. destruct b; reflexivity.
    + intros -> Hb. destruct b; try reflexivity. elim Hb. reflexivity.
    + destruct (String.eqb act "on"), (String.eqb act "off"),
        (String.eqb act "toggle"), b; reflexivity.
  - repeat split.
    + destruct (String.eqb act "on"), (String.eqb act "off"),
        (String.eqb act "toggle"); reflexivity.
    + intros ->. reflexivity.
    + intros -> _. reflexivity.
    + destruct (String.eqb act "on"), (String.eqb act "off"),
        (String.eqb act "toggle"); reflexivity.
Qed.

(** X3. Toggling a light that is on or off twice, with no brightness
    given, gives back the device table it started from. *)
Theorem toggle_twice_restores (now now' : string) (s : Server)
    (Hstate : light_state (living_room_light (DEVICES s)) = "on"
              \/ light_state (living_room_light (DEVICES s)) = "off") :
  DEVICES (snd (control_light now' "toggle" None
                  (snd (control_light now "toggle" None s))))
  = DEVICES s.
Proof.
  destruct s as [[[ln lt ls lb] t k] log]. simpl in Hstate.
  destruct Hstate as [-> | ->]; reflexivity.
Qed.

(** ** The device table stays well formed *)

Ltac devices_ok_cases :=
  simpl; repeat match goal with |- _ /\ _ => split end;
  auto; try lia;
  try match goal with |- context [if ?c then _ else _] => destruct c end;
  try (left; reflexivity); try (right; reflexivity).

Lemma control_light_devices_ok now act bright s :
  devices_ok (DEVICES s) ->
  devices_ok (DEVICES (snd (control_light now act bright s))).
Proof.
  destruct s as [[[ln lt ls lb] t k] log]. unfold devices_ok, control_light.
  simpl. intros (Hst & Hb & Hk & Hn1 & Hn2 & Hn3 & Ht1 & Ht2 & Ht3).
  destruct bright as [b |].
  - destruct ((0 <=? b) && (b <=? 100))%bool eqn:Hrange; [| devices_ok_cases].
    apply andb_true_iff in Hrange. destruct Hrange as [H0 H100].
    apply Z.leb_le in H0. apply Z.leb_le in H100.
    destruct (String.eqb act "on"), (String.eqb act "off"),
      (String.eqb act "toggle"), (String.eqb ls "off"), b; devices_ok_cases.
  - destruct (String.eqb act "on"), (String.eqb act "off"),
      (String.eqb act "toggle"), (String.eqb ls "off"); devices_ok_cases.
Qed.

Lemma set_temperature_devices_ok now target s :
  devices_ok (DEVICES s) ->
  devices_ok (DEVICES (snd (set_temperature str_float now target s))).
Proof.
  unfold set_temperature, devices_ok.
  intros (Hst & Hb & Hk & Hn1 & Hn2 & Hn3 & Ht1 & Ht2 & Ht3).
  destruct (Py.between 16 target 30); devices_ok_cases.
Qed.

Lemma control_door_lock_devices_ok now act s :
  devices_ok (DEVICES s) ->
  devices_ok (DEVICES (snd (control_door_lock now act s))).
Proof.
  unfold devices_ok, control_door_lock.
  intros (Hst & Hb & Hk & Hn1 & Hn2 & Hn3 & Ht1 & Ht2 & Ht3).
  destruct (String.eqb act "lock"), (String.eqb act "unlock"); devices_ok_cases.
Qed.

Lemma activate_scene_devices_ok now scene s :
  devices_ok (DEVICES s) ->
  devices_ok (DEVICES (snd (activate_scene now scene s))).
Proof.
  unfold devices_ok, activate_scene.
  intros (Hst & Hb & Hk & Hn1 & Hn2 & Hn3 & Ht1 & Ht2 & Ht3).
  destruct (String.eqb scene "evening"); [devices_ok_cases |].
  destruct (String.eqb scene "morning"); [devices_ok_cases |].
  destruct (String.eqb scene "away"); devices_ok_cases.
Qed.

Lemma call_tool_devices_ok now c s :
  devices_ok (DEVICES s) ->
  devices_ok (DEVICES (snd (call_tool str_float now c s))).
Proof.
  destruct c; unfold call_tool.
  - apply control_light_devices_ok.
  - apply set_temperature_devices_ok.
  - apply control_door_lock_devices_ok.
  - apply activate_scene_devices_ok.
Qed.

(** X4. Every sequence of tool calls keeps the device table well formed:
    the light is on or off with a brightness from 0 to 100, the lock is
    locked or unlocked, and no name or type changes. *)
Theorem run_calls_devices_ok (calls : list (string * ToolCall)) (s : Server)
    (Hok : devices_ok (DEVICES s)) :
  devices_ok (DEVICES (run_calls str_float calls s)).
Proof.
  revert s Hok. induction calls as [| [now c] calls IH]; intros s Hok; simpl.
  - exact Hok.
  - apply IH, call_tool_devices_ok, Hok.
Qed.

(** ** What the log holds *)

Lemma Forall_append_bounded (P : Event -> Prop) (e : Event) (log : list Event) :
  P e -> Forall P log -> Forall P (append_bounded e log).
Proof.
  intros He Hlog. unfold append_bounded.
  assert (Hall : Forall P (log ++ [e])%list)
    by (apply Forall_app; split; [exact Hlog | constructor; [exact He | constructor]]).
  destruct (capacity <? length (log ++ [e])%list)%nat; [| exact Hall].
  destruct (log ++ [e])%list; [constructor |].
  inversion Hall; assumption.
Qed.

Lemma call_tool_known_label now c s :
  devices_ok (DEVICES s) ->
  Forall known_label (EVENT_LOG s) ->
  Forall known_label (EVENT_LOG (snd (call_tool str_float now c s))).
Proof.
  intros (Hst & Hb & Hk & Hn1 & Hn2 & Hn3 & _) Hlog.
  destruct c as [a bright | t | a | sc]; unfold call_tool.
  - unfold control_light.
    destruct bright as [b |];
      [destruct ((0 <=? b) && (b <=? 100))%bool; [| exact Hlog] |];
      apply Forall_append_bounded; try exact Hlog; left;
      destruct a, (String.eqb (light_state (living_room_light (DEVICES s))) "off");
      try destruct b; exact Hn1.
  - unfold set_temperature.
    destruct (Py.between 16 t 30); [| exact Hlog].
    apply Forall_append_bounded; [| exact Hlog]. right; left. exact Hn2.
  - apply Forall_append_bounded; [| exact Hlog]. right; right; left.
    destruct a; exact Hn3.
  - destruct (activate_scene_log now (scene_str sc) s) as [Hlog' _].
    rewrite Hlog'. apply Forall_append_bounded; [| exact Hlog].
    right; right; right. reflexivity.
Qed.

(** X5. Whatever tools are called on a well-formed server, every entry
    of the log is labelled with one of the three device names or with
    "scene_control". *)
Theorem run_calls_known_labels (calls : list (string * ToolCall)) (s : Server)
    (Hok : devices_ok (DEVICES s)) (Hlog : Forall known_label (EVENT_LOG s)) :
  Forall known_label (EVENT_LOG (run_calls str_float calls s)).
Proof.
  revert s Hok Hlog.
  induction calls as [| [now c] calls IH]; intros s Hok Hlog; simpl.
  - exact Hlog.
  - apply IH.
    + apply call_tool_devices_ok, Hok.
    + apply call_tool_known_label; assumption.
Qed.

(** X6. After a sequence of tool calls the log holds one entry for each
    call that was accepted, up to its capacity: rejected calls leave no
    entry. *)
Theorem run_calls_log_length (calls : list (string * ToolCall)) (s : Server)
    (Hcap : (length (EVENT_LOG s) <= capacity)%nat) :
  length (EVENT_LOG (run_calls str_float calls s))
  = Nat.min (length (EVENT_LOG s) + count_accepted calls) capacity.
Proof.
  revert s Hcap. unfold count_accepted.
  induction calls as [| [now c] calls IH]; intros s Hcap; simpl.
  - rewrite Nat.add_0_r. symmetry. apply Nat.min_l, Hcap.
  - rewrite IH by (apply call_tool_log_bounded, Hcap).
    destruct (in_domain c) eqn:Hdom; simpl.
    + destruct (call_tool_logs_once str_float now c s Hdom) as (e & Hlog & _).
      rewrite Hlog, append_bounded_length.
      destruct (Nat.ltb_spec (length (EVENT_LOG s)) capacity); lia.
    + destruct (call_tool_rejects str_float now c s Hdom) as [_ Hs].
      rewrite Hs. reflexivity.
Qed.

(** X7. The events the status resource shows are the five most recent
    of all the events logged, in the order they were logged. *)
Theorem recent_events_are_last_five (evs : list (string * string * string))
    (s : Server) (Hcap : (length (EVENT_LOG s) <= capacity)%nat) :
  let all := (EVENT_LOG s ++ map (event_of (DEVICES s)) evs)%list in
  recent_events (log_events evs s) = skipn (length all - 5) all
  /\ (length (recent_events (log_events evs s)) <= 5)%nat.
Proof.
  cbv zeta. split; [| apply recent_events_length].
  unfold recent_events. rewrite (log_events_keep_last evs s Hcap). cbv zeta.
  rewrite skipn_skipn, length_skipn. f_equal. unfold capacity. lia.
Qed.

(** ** Scenes *)

(** X8. A scene sets the target of the thermostat and never its current
    temperature, and activating the same scene again changes no device
    further. *)
Theorem activate_scene_idempotent (now now' scene : string) (s : Server) :
  let s' := snd (activate_scene now scene s) in
  temperature (thermostat (DEVICES s')) = temperature (thermostat (DEVICES s))
  /\ DEVICES (snd (activate_scene now' scene s')) = DEVICES s'.
Proof.
  cbv zeta. unfold activate_scene.
  destruct (String.eqb scene "evening"); [split; reflexivity |].
  destruct (String.eqb scene "morning"); [split; reflexivity |].
  destruct (String.eqb scene "away"); split; reflexivity.
Qed.

(** ** An action outside the declared ones *)

(** X9. Called with an action string other than "lock" and "unlock",
    [control_door_lock] changes no device, and still logs one event,
    "Door <action>ed", and answers with the non-error text that reports
    the lock's state. *)
Theorem control_door_lock_other_action (now act : string) (s : Server)
    (Hlock : String.eqb act "lock" = false)
    (Hunlock : String.eqb act "unlock" = false) :
  let out := control_door_lock now act s in
  DEVICES (snd out) = DEVICES s
  /\ EVENT_LOG (snd out)
     = append_bounded
         (mkEvent now (lock_name (front_door (DEVICES s))) ("Door " ++ act ++ "ed"))
         (EVENT_LOG s)
  /\ fst out = "🚪 Front door is now " ++ lock_state (front_door (DEVICES s))
  /\ is_error (fst out) = false.
Proof.
  cbv zeta. unfold control_door_lock. rewrite Hlock, Hunlock.
  destruct s as [[l t k] log]. repeat split.
Qed.

End ServerFurther.

(** * Further properties of the client *)

Section ClientFurther.

Import Client.

Ltac client_cbv :=
  cbv [start_mcp_server stop_mcp_server initialise_llm create_agent shutdown
       close_session end_process stop_steps
       process_user_input Runner_run Popen MCPServerStdio aenter aexit
       mark_exited poll_is_None try_except bind ret raise modify get may_raise
       set_agent set_mcp_server set_server_process set_current_thread_id
       set_previous_result set_aoai_client set_processes set_sessions
       set_runner_calls running started_message stopped_message
       agent mcp_server server_process current_thread_id previous_result
       aoai_client processes sessions runner_calls fst snd].

Lemma live_at_fresh (table : list ProcStatus) :
  live_at (table ++ [Running])%list (length table) = true.
Proof. rewrite live_at_snoc, Nat.eqb_refl. reflexivity. Qed.

Lemma live_at_first_of_two (table : list ProcStatus) (st st' : ProcStatus) :
  live_at (table ++ [st; st'])%list (length table) = is_running st.
Proof.
  unfold live_at. rewrite nth_error_app2 by lia. rewrite Nat.sub_diag.
  destruct st; reflexivity.
Qed.

Lemma live_at_second_of_two (table : list ProcStatus) (st st' : ProcStatus) :
  live_at (table ++ [st; st'])%list (S (length table)) = is_running st'.
Proof.
  unfold live_at. rewrite nth_error_app2 by lia.
  replace (S (length table) - length table)%nat with 1%nat by lia.
  destruct st'; reflexivity.
Qed.

Lemma nth_error_fresh {A : Type} (l : list A) (x : A) :
  nth_error (l ++ [x])%list (length l) = Some x.
Proof. rewrite nth_error_snoc, Nat.eqb_refl. reflexivity. Qed.

(** ** Starting *)

Lemma update_second_of_two {A : Type} (l : list A) (x y z : A) :
  update (S (length l)) z (l ++ [x; y])%list = (l ++ [x; z])%list.
Proof. induction l as [| h l IH]; simpl; [| rewrite IH]; reflexivity. Qed.

(** The world a start that reports success leaves. *)
Lemma start_success_world env w :
  fst (start_mcp_server env w) = started_message ->
  snd (start_mcp_server env w)
  = mkWorld
      (Some (mkAgent "Home Assistant" instructions_with_tools
               [length (sessions w)]))
      (Some (length (sessions w))) (Some (length (processes w)))
      (current_thread_id w) (previous_result w) true
      (processes w ++ [Running; Running])%list
      (sessions w ++ [Entered (S (length (processes w)))])%list
      (runner_calls w).
Proof.
  destruct env as [fe pr ee ar [cr agr]], w as [a ms sp ct prv cl ps ss rc].
  destruct fe, pr, ee, ar, cl, cr, agr; client_cbv; simpl; try discriminate;
    intros _; rewrite ?update_snoc, <- ?app_assoc, ?length_app; simpl;
    rewrite ?Nat.add_1_r; reflexivity.
Qed.

(** X10. A start that reports success has spawned one child with
    [Popen], live and named by [server_process], has built one session,
    named by [mcp_server], and entered it, which started a second
    server child, live too; and it has bound the agent to that session
    with the tool-present instructions. *)
Theorem start_success_binds_new_server (env : StartEnv) (w : World)
    (Hok : fst (start_mcp_server env w) = started_message) :
  let w' := snd (start_mcp_server env w) in
  let pid := length (processes w) in
  let sid := length (sessions w) in
  server_process w' = Some pid
  /\ processes w' = (processes w ++ [Running; Running])%list
  /\ running w' pid = true
  /\ running w' (S pid) = true
  /\ mcp_server w' = Some sid
  /\ sessions w' = (sessions w ++ [Entered (S pid)])%list
  /\ agent w' = Some (mkAgent "Home Assistant" instructions_with_tools [sid]).
Proof.
  cbv zeta. rewrite (start_success_world env w Hok). unfold running. simpl.
  repeat split;
    first [ apply live_at_first_of_two | apply live_at_second_of_two ].
Qed.

(** X11. A start that does not report success leaves the agent as it
    was bound, and the conversation untouched. *)
Theorem start_failure_keeps_agent (env : StartEnv) (w : World)
    (Hfail : fst (start_mcp_server env w) <> started_message) :
  let w' := snd (start_mcp_server env w) in
  agent w' = agent w
  /\ previous_result w' = previous_result w
  /\ current_thread_id w' = current_thread_id w.
Proof.
  revert Hfail.
  destruct env as [fe pr ee ar [cr agr]], w as [a ms sp ct prv cl ps ss rc].
  destruct fe, pr, ee, ar, cl, cr, agr; client_cbv; simpl; intros Hfail;
    try (repeat split; reflexivity); elim Hfail; reflexivity.
Qed.

(** X12. When the server file is missing or the spawn raises, a start
    changes nothing and reports the error. *)
Theorem start_without_spawn_changes_nothing (env : StartEnv) (w : World)
    (Hnone : file_exists env = false \/ popen_raises env <> None) :
  snd (start_mcp_server env w) = w
  /\ fst (start_mcp_server env w)
     = (if file_exists env
        then "❌ Error starting MCP server: "
             ++ match popen_raises env with Some e => e | None => "" end
        else "❌ MCP server file not found: ./MCPServer_HomeAutomation.py").
Proof.
  destruct env as [fe pr ee ar ae], w as [a ms sp ct prv cl ps ss rc].
  simpl in Hnone. destruct fe; [| split; reflexivity].
  destruct Hnone as [Hfe | Hpr]; [discriminate |].
  destruct pr as [e |]; [split; reflexivity | elim Hpr; reflexivity].
Qed.

(** X13. When the child is found exited after the grace period, the
    start reports its error stream and builds no session: the sessions,
    the session handle and the agent are as before, the child is
    recorded as exited and no more child is live than before. *)
Theorem start_early_exit_opens_no_session (env : StartEnv) (w : World)
    (error_output : string)
    (Hfile : file_exists env = true) (Hspawn : popen_raises env = None)
    (Hexit : exited_early env = Some error_output) :
  let w' := snd (start_mcp_server env w) in
  fst (start_mcp_server env w) = "❌ Server failed to start: " ++ error_output
  /\ sessions w' = sessions w
  /\ mcp_server w' = mcp_server w
  /\ agent w' = agent w
  /\ processes w' = (processes w ++ [Exited])%list
  /\ server_process w' = Some (length (processes w))
  /\ live_count w' = live_count w.
Proof.
  destruct env as [fe pr ee ar ae], w as [a ms sp ct prv cl ps ss rc].
  simpl in Hfile, Hspawn, Hexit. subst fe pr ee.
  client_cbv. simpl. rewrite update_snoc. repeat split.
  unfold live_count. simpl. rewrite filter_app. simpl.
  rewrite app_nil_r. reflexivity.
Qed.

(** ** Stopping *)

(** X14. A stop issued while no handle is held performs no operation on
    a process or a session: the tables and the (empty) handles are as
    before; it reports success and rebinds the tool-less agent, or, when
    building the agent raises, reports that and leaves the agent. *)
Theorem stop_without_server_is_harmless (env : StopEnv) (w : World)
    (Hsession : mcp_server w = None) (Hprocess : server_process w = None) :
  let out := stop_mcp_server env w in
  processes (snd out) = processes w
  /\ sessions (snd out) = sessions w
  /\ mcp_server (snd out) = None
  /\ server_process (snd out) = None
  /\ ((fst out = stopped_message
       /\ agent (snd out)
          = Some (mkAgent "Home Assistant" instructions_without_tools []))
      \/ (exists e, fst out = "❌ Error stopping server: " ++ e
                    /\ agent (snd out) = agent w)).
Proof.
  destruct env as [ar em nt sr wo kr [cr agr]], w as [a ms sp ct prv cl ps ss rc].
  simpl in Hsession, Hprocess. subst ms sp.
  destruct cl, cr, agr; client_cbv; simpl; repeat split;
    first [ left; split; reflexivity | right; eexists; split; reflexivity ].
Qed.

(** X15. Stopping again after a stop that reported success is safe: if
    building the agent does not raise, the second stop reports success
    and leaves the world exactly as the first one left it. *)
Theorem stop_twice_is_stop_once (env env' : StopEnv) (w : World)
    (Hok : fst (stop_mcp_server env w) = stopped_message)
    (Hagent : agent_raises (stop_agent_env env') = None) :
  stop_mcp_server env' (snd (stop_mcp_server env w))
  = (stopped_message, snd (stop_mcp_server env w)).
Proof.
  destruct (stop_cases env w) as (_ & _ & _ & _ & _ & Hcases).
  destruct Hcases as [[_ (e & He)] | (Hms & _ & Hrest)];
    [rewrite He in Hok; discriminate Hok |].
  destruct Hrest as [(_ & _ & e & He) | (Hsp & _ & Hbound)];
    [rewrite He in Hok; discriminate Hok |].
  destruct Hbound as [(_ & Hbound & Hclient) | (_ & e & He)];
    [| rewrite He in Hok; discriminate Hok].
  destruct (snd (stop_mcp_server env w)) as [a ms sp ct prv cl ps ss rc].
  simpl in Hms, Hsp, Hbound, Hclient. subst a ms sp cl.
  destruct env' as [ar em nt sr wo kr [cr agr]]. simpl in Hagent. subst agr.
  reflexivity.
Qed.

(** X16. In a world whose live children are all named by a handle, a
    stop that reports success leaves no child live: neither the one
    spawned with [Popen] nor the one the session started. *)
Theorem stop_success_leaves_no_child (env : StopEnv) (w : World)
    (Htracked : tracked_only w)
    (Hok : fst (stop_mcp_server env w) = stopped_message) :
  live_count (snd (stop_mcp_server env w)) = 0%nat.
Proof.
  destruct (stop_cases env w) as (_ & _ & _ & _ & Hmono & Hcases).
  destruct Hcases as [[_ (e & He)] | (_ & Hchild & Hrest)];
    [rewrite He in Hok; discriminate Hok |].
  destruct Hrest as [(_ & _ & e & He) | (_ & Hdead & _)];
    [rewrite He in Hok; discriminate Hok |].
  apply live_count_zero. intros pid.
  destruct (running (snd (stop_mcp_server env w)) pid) eqn:Hlive; [| reflexivity].
  rewrite <- Hlive.
  destruct (Htracked pid (Hmono pid Hlive)) as [Hsp | (sid & Hsid & Hst)].
  - apply Hdead, Hsp.
  - apply (Hchild sid pid Hsid Hst).
Qed.

(** ** The lifecycle and the conversation *)

(** What a start, a stop and an initialisation do to the agent and to
    the number of sessions. *)
Lemma start_agent env w :
  let w' := snd (start_mcp_server env w) in
  (length (sessions w) <= length (sessions w'))%nat
  /\ (agent w' = agent w
      \/ (agent w'
          = Some (mkAgent "Home Assistant" instructions_with_tools
                    [length (sessions w)])
          /\ (length (sessions w) < length (sessions w'))%nat)).
Proof.
  destruct env as [fe pr ee ar [cr agr]], w as [a ms sp ct prv cl ps ss rc].
  destruct fe, pr, ee, ar, cl, cr, agr; client_cbv; simpl;
    rewrite ?length_update, ?length_app; simpl;
    (split; [lia |]);
    first [ left; reflexivity | right; split; [reflexivity | lia] ].
Qed.

Lemma stop_agent env w :
  let w' := snd (stop_mcp_server env w) in
  length (sessions w') = length (sessions w)
  /\ (agent w' = agent w
      \/ agent w' = Some (mkAgent "Home Assistant" instructions_without_tools [])).
Proof.
  cbv zeta.
  destruct (stop_cases env w) as (_ & _ & _ & Hlen & _ & Hcases).
  split; [exact Hlen |].
  destruct Hcases as [[Hsame _] | (_ & _ & Hrest)]; [left; rewrite Hsame; reflexivity |].
  destruct Hrest as [(_ & Hsame & _) | (_ & _ & Hbound)]; [left; exact Hsame |].
  destruct Hbound as [(_ & Hbound & _) | (Hsame & _)]; [right | left]; assumption.
Qed.

Lemma lifecycle_conversation_frame (start_env : StartEnv) (stop_env : StopEnv)
    (init_env : AgentEnv) (w w' : World) :
  w' = snd (start_mcp_server start_env w)
  \/ w' = snd (stop_mcp_server stop_env w)
  \/ w' = snd (initialise_llm init_env w) ->
  previous_result w' = previous_result w
  /\ current_thread_id w' = current_thread_id w
  /\ runner_calls w' = runner_calls w.
Proof.
  intros [-> | [-> | ->]].
  - destruct start_env as [fe pr ee ar [cr agr]], w as [a ms sp ct prv cl ps ss rc].
    destruct fe, pr, ee, ar, cl, cr, agr; client_cbv; simpl; repeat split.
  - destruct (stop_cases stop_env w) as (Hp & Ht & Hr & _). auto.
  - destruct init_env as [cr agr], w as [a ms sp ct prv cl ps ss rc].
    destruct cl, cr, agr; client_cbv; simpl; repeat split.
Qed.

(** X17. Starting and stopping the server never touch the conversation:
    after any sequence of starts and stops the continuation state, the
    session identifier and the record of runner calls are as before, so
    the next turn continues the conversation with the agent now bound. *)
Theorem run_ops_keeps_conversation (ops : list Op) (w : World) :
  previous_result (run_ops ops w) = previous_result w
  /\ current_thread_id (run_ops ops w) = current_thread_id w
  /\ runner_calls (run_ops ops w) = runner_calls w.
Proof.
  revert w. induction ops as [| op ops IH]; intros w; simpl.
  - repeat split.
  - destruct (IH (step op w)) as (Hp & Ht & Hr). rewrite Hp, Ht, Hr.
    destruct op as [env | env]; simpl.
    + apply (lifecycle_conversation_frame env stop_ok agent_ok). left. reflexivity.
    + apply (lifecycle_conversation_frame start_ok env agent_ok).
      right; left. reflexivity.
Qed.

(** X18. Every agent the lifecycle binds is well formed: from a world
    with a well-formed binding, an initialisation and any sequence of
    starts and stops leave the agent, if bound, named "Home Assistant",
    with no server and the tool-absent instructions or with one existing
    session and the tool-present instructions. *)
Theorem lifecycle_keeps_binding_ok (init_env : AgentEnv) (ops : list Op)
    (w : World) (Hok : binding_ok w) :
  binding_ok (run_ops ops (snd (initialise_llm init_env w))).
Proof.
  assert (Hinit : binding_ok (snd (initialise_llm init_env w))).
  { destruct init_env as [cr agr], w as [a ms sp ct prv cl ps ss rc].
    unfold binding_ok in *. simpl in Hok.
    destruct cl, cr, agr; client_cbv; simpl; try exact Hok;
      (split; [reflexivity | left; split; reflexivity]). }
  revert Hinit. generalize (snd (initialise_llm init_env w)). clear w Hok.
  induction ops as [| op ops IH]; intros w Hok; simpl; [exact Hok |].
  apply IH. unfold binding_ok in *.
  destruct op as [env | env]; simpl.
  - destruct (start_agent env w) as [Hlen [Hsame | [Hnew Hlt]]].
    + rewrite Hsame. destruct (agent w) as [a |]; [| exact I].
      destruct Hok as [Hname [Hnone | (sid & Hs & Hsid & Hi)]].
      * split; [exact Hname | left; exact Hnone].
      * split; [exact Hname | right; exists sid; repeat split; auto; lia].
    + rewrite Hnew. split; [reflexivity |].
      right. eexists. repeat split. exact Hlt.
  - destruct (stop_agent env w) as [Hlen [Hsame | Hnew]].
    + rewrite Hsame, Hlen. exact Hok.
    + rewrite Hnew. split; [reflexivity | left; split; reflexivity].
Qed.

(** X19. An initialisation binds the tool-less agent and reports
    success, or reports the error and leaves the agent as it was; either
    way it touches no handle, process or session. *)
Theorem initialise_llm_outcome (env : AgentEnv) (w : World) :
  let out := initialise_llm env w in
  ((fst out = "✅ AI Agent initialised successfully! (No MCP tools available yet)"
    /\ agent (snd out)
       = Some (mkAgent "Home Assistant" instructions_without_tools []))
   \/ (exists e, fst out = "❌ Error initialising LLM: " ++ e
                 /\ agent (snd out) = agent w))
  /\ mcp_server (snd out) = mcp_server w
  /\ server_process (snd out) = server_process w
  /\ processes (snd out) = processes w
  /\ sessions (snd out) = sessions w.
Proof.
  destruct env as [cr agr], w as [a ms sp ct prv cl ps ss rc].
  destruct cl, cr, agr; client_cbv; simpl; repeat split;
    first [ left; split; reflexivity | right; eexists; split; reflexivity ].
Qed.

(** ** Turns *)

(** X20. Two turns of a conversation: the first, with no continuation
    state, draws a session identifier and gives the runner the raw text;
    its result becomes the continuation state and its answer closes the
    history; the second gives the runner the items of that result
    followed by the new user message, under the same identifier. *)
Theorem second_turn_continues_first
    (run : Agent -> AgentInput -> Result RunResult)
    (fresh fresh' first second : string) (history : list ChatEntry)
    (a : Agent) (r : RunResult) (w : World)
    (Hagent : agent w = Some a) (Hnew : previous_result w = None)
    (Hrun : run a (InputText first) = Ok r) :
  let turn1 := process_user_input run fresh first history w in
  let turn2 := process_user_input run fresh' second [] (snd turn1) in
  fst turn1
  = Ok ((history ++
           [mkChatEntry "user" first "👤";
            mkChatEntry "assistant" (final_output r) "🤖"])%list, "")
  /\ previous_result (snd turn1) = Some r
  /\ current_thread_id (snd turn2) = Some fresh
  /\ runner_calls (snd turn2)
     = (runner_calls w ++
          [mkRunnerCall a (InputText first) (Some fresh);
           mkRunnerCall a
             (InputList (to_input_list r ++ [mkMessage "user" second])%list)
             (Some fresh)])%list.
Proof.
  destruct w as [ag ms sp ct prv cl ps ss rc]. simpl in Hagent, Hnew.
  subst ag prv. client_cbv. simpl. rewrite Hrun. simpl.
  destruct (run a (InputList _)); simpl; rewrite <- app_assoc; repeat split.
Qed.

(** X21. When the runner raises, the turn raises the same exception: the
    call is on record, and the continuation state, the agent and the
    handles are as before, so the conversation can go on from where it
    was. *)
Theorem failed_turn_keeps_continuation
    (run : Agent -> AgentInput -> Result RunResult)
    (fresh user_input msg : string) (history : list ChatEntry)
    (a : Agent) (w : World)
    (Hagent : agent w = Some a)
    (Hraise : forall i, run a i = Raised msg) :
  let out := process_user_input run fresh user_input history w in
  fst out = Raised msg
  /\ previous_result (snd out) = previous_result w
  /\ agent (snd out) = agent w
  /\ mcp_server (snd out) = mcp_server w
  /\ server_process (snd out) = server_process w
  /\ length (runner_calls (snd out)) = S (length (runner_calls w)).
Proof.
  destruct w as [ag ms sp ct prv cl ps ss rc]. simpl in Hagent. subst ag.
  client_cbv. simpl.
  destruct prv as [prev |]; simpl; rewrite Hraise; simpl;
    rewrite length_app; simpl; repeat split; lia.
Qed.

(** ** Leaving *)

(** X22. Leaving the application after a start that reported success
    leaves the child spawned with [Popen] running and named by
    [server_process]: [shutdown] only leaves the session, which (if that
    does not raise) is closed and whose own server child is ended. *)
Theorem shutdown_leaves_child_running (env : StartEnv) (outcome : option string)
    (w : World) (Hok : fst (start_mcp_server env w) = started_message) :
  let w1 := snd (start_mcp_server env w) in
  let w2 := snd (shutdown outcome w1) in
  running w2 (length (processes w)) = true
  /\ server_process w2 = Some (length (processes w))
  /\ (outcome = None ->
      nth_error (sessions w2) (length (sessions w)) = Some Closed
      /\ running w2 (S (length (processes w))) = false)
  /\ (outcome <> None -> w2 = w1).
Proof.
  cbv zeta. rewrite (start_success_world env w Hok).
  destruct outcome as [e |]; client_cbv; simpl.
  - repeat split; try discriminate. apply live_at_first_of_two.
  - rewrite nth_error_fresh, update_second_of_two, update_snoc.
    repeat split.
    + apply live_at_first_of_two.
    + apply nth_error_fresh.
    + apply live_at_second_of_two.
    + intros H. elim H. reflexivity.
Qed.

End ClientFurther.

(** ** The further properties at concrete inputs *)

(** X2 at [control_light("off", 80)] on the initial server: the light
    stays off and its brightness is 80. *)
Lemma control_light_effect_witness :
  HomeAutomation.brightness_ok (Some 80) = true
  /\ HomeAutomation.brightness
       (HomeAutomation.living_room_light
          (HomeAutomation.DEVICES
             (snd (HomeAutomation.control_light "2025-06-01 08:00:00" "off"
                     (Some 80) HomeAutomation.initial)))) = 80.
Proof.
  split; [reflexivity |].
  exact (proj1 (control_light_effect "2025-06-01 08:00:00" "off" (Some 80)
                  HomeAutomation.initial eq_refl)).
Defined.

(** X3 at the initial server, whose light is off. *)
Lemma toggle_twice_restores_witness :
  HomeAutomation.light_state
    (HomeAutomation.living_room_light
       (HomeAutomation.DEVICES HomeAutomation.initial)) = "off"
  /\ HomeAutomation.DEVICES
       (snd (HomeAutomation.control_light "2025-06-01 08:00:05" "toggle" None
               (snd (HomeAutomation.control_light "2025-06-01 08:00:00" "toggle"
                       None HomeAutomation.initial))))
     = HomeAutomation.DEVICES HomeAutomation.initial.
Proof.
  split; [reflexivity |].
  apply (toggle_twice_restores "2025-06-01 08:00:00" "2025-06-01 08:00:05"
           HomeAutomation.initial).
  right. reflexivity.
Defined.

(** X4 at the initial server, after the away scene and a rejected
    brightness. *)
Lemma run_calls_devices_ok_witness :
  HomeAutomation.devices_ok (HomeAutomation.DEVICES HomeAutomation.initial)
  /\ HomeAutomation.devices_ok
       (HomeAutomation.DEVICES
          (HomeAutomation.run_calls (fun _ => "")
             [("2025-06-01 08:00:00",
               HomeAutomation.ActivateScene HomeAutomation.Away);
              ("2025-06-01 08:00:05",
               HomeAutomation.ControlLight HomeAutomation.LightOn (Some 150))]
             HomeAutomation.initial)).
Proof.
  assert (Hok : HomeAutomation.devices_ok
                  (HomeAutomation.DEVICES HomeAutomation.initial)).
  { unfold HomeAutomation.devices_ok. simpl.
    repeat split; try reflexivity; try lia; [right | left]; reflexivity. }
  split; [exact Hok |].
  apply (run_calls_devices_ok (fun _ => "")). exact Hok.
Defined.

(** X5 at the initial server, whose log is empty, after one call of each
    tool. *)
Lemma run_calls_known_labels_witness :
  Forall HomeAutomation.known_label
    (HomeAutomation.EVENT_LOG
       (HomeAutomation.run_calls (fun _ => "")
          [("2025-06-01 08:00:00",
            HomeAutomation.ControlLight HomeAutomation.LightOn None);
           ("2025-06-01 08:00:01", HomeAutomation.SetTemperature 21%float);
           ("2025-06-01 08:00:02",
            HomeAutomation.ControlDoorLock HomeAutomation.DoorUnlock);
           ("2025-06-01 08:00:03",
            HomeAutomation.ActivateScene HomeAutomation.Evening)]
          HomeAutomation.initial)).
Proof.
  apply (run_calls_known_labels (fun _ => "")).
  - unfold HomeAutomation.devices_ok. simpl.
    repeat split; try reflexivity; try lia; [right | left]; reflexivity.
  - simpl. constructor.
Defined.

(** X6 at the initial server: of three calls, the two accepted ones are
    in the log. *)
Lemma run_calls_log_length_witness :
  (length (HomeAutomation.EVENT_LOG HomeAutomation.initial)
   <= HomeAutomation.capacity)%nat
  /\ length
       (HomeAutomation.EVENT_LOG
          (HomeAutomation.run_calls (fun _ => "")
             [("2025-06-01 08:00:00",
               HomeAutomation.ControlLight HomeAutomation.LightOn (Some 150));
              ("2025-06-01 08:00:01", HomeAutomation.SetTemperature 21%float);
              ("2025-06-01 08:00:02",
               HomeAutomation.ControlDoorLock HomeAutomation.DoorUnlock)]
             HomeAutomation.initial))
     = 2%nat.
Proof.
  assert (Hcap : (length (HomeAutomation.EVENT_LOG HomeAutomation.initial)
                  <= HomeAutomation.capacity)%nat)
    by (unfold HomeAutomation.capacity; simpl; lia).
  split; [exact Hcap |].
  exact (run_calls_log_length (fun _ => "")
           [("2025-06-01 08:00:00",
             HomeAutomation.ControlLight HomeAutomation.LightOn (Some 150));
            ("2025-06-01 08:00:01", HomeAutomation.SetTemperature 21%float);
            ("2025-06-01 08:00:02",
             HomeAutomation.ControlDoorLock HomeAutomation.DoorUnlock)]
           HomeAutomation.initial Hcap).
Defined.

(** X7 at seven events logged into the empty log: the last five are
    shown. *)
Lemma recent_events_are_last_five_witness :
  let evs :=
    map (fun n => (Py.str_int (Z.of_nat n), "front_door", "Door locked")) (seq 0 7) in
  (length (HomeAutomation.EVENT_LOG HomeAutomation.initial)
   <= HomeAutomation.capacity)%nat
  /\ HomeAutomation.recent_events
       (HomeAutomation.log_events evs HomeAutomation.initial)
     = skipn 2 (map (HomeAutomation.event_of HomeAutomation.initial_devices) evs).
Proof.
  cbv zeta.
  assert (Hcap : (length (HomeAutomation.EVENT_LOG HomeAutomation.initial)
                  <= HomeAutomation.capacity)%nat)
    by (unfold HomeAutomation.capacity; simpl; lia).
  split; [exact Hcap |].
  exact (proj1 (recent_events_are_last_five
                  (map (fun n => (Py.str_int (Z.of_nat n), "front_door", "Door locked"))
                     (seq 0 7))
                  HomeAutomation.initial Hcap)).
Defined.

(** X9 at [control_door_lock("open")] on the initial server. *)
Lemma control_door_lock_other_action_witness :
  String.eqb "open" "lock" = false
  /\ String.eqb "open" "unlock" = false
  /\ HomeAutomation.EVENT_LOG
       (snd (HomeAutomation.control_door_lock "2025-06-01 08:00:00" "open"
               HomeAutomation.initial))
     = [HomeAutomation.mkEvent "2025-06-01 08:00:00" "Front Door Lock" "Door opened"].
Proof.
  split; [reflexivity | split; [reflexivity |]].
  exact (proj1 (proj2 (control_door_lock_other_action "2025-06-01 08:00:00" "open"
                         HomeAutomation.initial eq_refl eq_refl))).
Defined.

(** X10 at a start from the initial world in which nothing fails. *)
Lemma start_success_binds_new_server_witness :
  fst (Client.start_mcp_server Client.start_ok Client.initial)
  = Client.started_message
  /\ Client.agent (snd (Client.start_mcp_server Client.start_ok Client.initial))
     = Some (Client.mkAgent "Home Assistant" Client.instructions_with_tools [0%nat]).
Proof.
  split; [reflexivity |].
  exact (proj2 (proj2 (proj2 (proj2 (proj2 (proj2
           (start_success_binds_new_server Client.start_ok Client.initial
              eq_refl))))))).
Defined.

(** X11 at a start whose handshake raises, after an initialisation. *)
Lemma start_failure_keeps_agent_witness :
  let w := snd (Client.initialise_llm Client.agent_ok Client.initial) in
  let env :=
    Client.mkStartEnv true None None (Some "handshake timed out") Client.agent_ok in
  fst (Client.start_mcp_server env w) <> Client.started_message
  /\ Client.agent (snd (Client.start_mcp_server env w))
     = Some (Client.mkAgent "Home Assistant" Client.instructions_without_tools []).
Proof.
  cbv zeta.
  assert (Hfail : fst (Client.start_mcp_server
                         (Client.mkStartEnv true None None
                            (Some "handshake timed out") Client.agent_ok)
                         (snd (Client.initialise_llm Client.agent_ok Client.initial)))
                  <> Client.started_message)
    by (vm_compute; discriminate).
  split; [exact Hfail |].
  exact (proj1 (start_failure_keeps_agent _ _ Hfail)).
Defined.

(** X12 at a start with the server file missing. *)
Lemma start_without_spawn_changes_nothing_witness :
  let env := Client.mkStartEnv false None None None Client.agent_ok in
  Client.file_exists env = false
  /\ snd (Client.start_mcp_server env Client.initial) = Client.initial.
Proof.
  cbv zeta. split; [reflexivity |].
  exact (proj1 (start_without_spawn_changes_nothing
                  (Client.mkStartEnv false None None None Client.agent_ok)
                  Client.initial (or_introl eq_refl))).
Defined.

(** X13 at a start whose child exits at once. *)
Lemma start_early_exit_opens_no_session_witness :
  let env :=
    Client.mkStartEnv true None (Some "ModuleNotFoundError") None Client.agent_ok in
  Client.exited_early env = Some "ModuleNotFoundError"
  /\ fst (Client.start_mcp_server env Client.initial)
     = "❌ Server failed to start: ModuleNotFoundError".
Proof.
  cbv zeta. split; [reflexivity |].
  exact (proj1 (start_early_exit_opens_no_session
                  (Client.mkStartEnv true None (Some "ModuleNotFoundError") None
                     Client.agent_ok)
                  Client.initial "ModuleNotFoundError" eq_refl eq_refl eq_refl)).
Defined.

(** X14 at a stop in the initial world, where nothing was started. *)
Lemma stop_without_server_is_harmless_witness :
  Client.mcp_server Client.initial = None
  /\ Client.server_process Client.initial = None
  /\ Client.processes (snd (Client.stop_mcp_server Client.stop_ok Client.initial))
     = Client.processes Client.initial.
Proof.
  split; [reflexivity | split; [reflexivity |]].
  exact (proj1 (stop_without_server_is_harmless Client.stop_ok Client.initial
                  eq_refl eq_refl)).
Defined.

(** X15 at two stops after a start, nothing failing. *)
Lemma stop_twice_is_stop_once_witness :
  let w := snd (Client.start_mcp_server Client.start_ok Client.initial) in
  fst (Client.stop_mcp_server Client.stop_ok w) = Client.stopped_message
  /\ Client.stop_mcp_server Client.stop_ok
       (snd (Client.stop_mcp_server Client.stop_ok w))
     = (Client.stopped_message, snd (Client.stop_mcp_server Client.stop_ok w)).
Proof.
  cbv zeta. split; [reflexivity |].
  exact (stop_twice_is_stop_once Client.stop_ok Client.stop_ok
           (snd (Client.start_mcp_server Client.start_ok Client.initial))
           eq_refl eq_refl).
Defined.

(** X16 at a stop after a start, nothing failing. *)
Lemma stop_success_leaves_no_child_witness :
  let w := snd (Client.start_mcp_server Client.start_ok Client.initial) in
  Client.tracked_only w
  /\ fst (Client.stop_mcp_server Client.stop_ok w) = Client.stopped_message
  /\ Client.live_count (snd (Client.stop_mcp_server Client.stop_ok w)) = 0%nat.
Proof.
  cbv zeta.
  assert (Htracked : Client.tracked_only
                       (snd (Client.start_mcp_server Client.start_ok Client.initial))).
  { intros [| [| pid]] H.
    - left. reflexivity.
    - right. exists 0%nat. split; reflexivity.
    - destruct pid; discriminate H. }
  split; [exact Htracked | split; [reflexivity |]].
  exact (stop_success_leaves_no_child Client.stop_ok _ Htracked eq_refl).
Defined.

(** X18 at the initial world, where no agent is bound, through an
    initialisation, a start and a stop. *)
Lemma lifecycle_keeps_binding_ok_witness :
  Client.binding_ok Client.initial
  /\ Client.binding_ok
       (Client.run_ops [Client.Start Client.start_ok; Client.Stop Client.stop_ok]
          (snd (Client.initialise_llm Client.agent_ok Client.initial))).
Proof.
  assert (Hok : Client.binding_ok Client.initial) by exact I.
  split; [exact Hok |].
  exact (lifecycle_keeps_binding_ok Client.agent_ok
           [Client.Start Client.start_ok; Client.Stop Client.stop_ok]
           Client.initial Hok).
Defined.

(** X20 at two turns with a runner that answers every input the same
    way. *)
Lemma second_turn_continues_first_witness :
  let a := Client.mkAgent "Home Assistant" Client.instructions_without_tools [] in
  let r :=
    Client.mkRunResult
      [Client.mkMessage "user" "hello"; Client.mkMessage "assistant" "hi"] "hi" in
  let run := fun (_ : Client.Agent) (_ : Client.AgentInput) => Client.Ok r in
  let w := snd (Client.initialise_llm Client.agent_ok Client.initial) in
  Client.agent w = Some a
  /\ Client.previous_result w = None
  /\ Client.previous_result
       (snd (Client.process_user_input run "trace_1" "hello" [] w)) = Some r.
Proof.
  cbv zeta. split; [reflexivity | split; [reflexivity |]].
  exact (proj1 (proj2
           (second_turn_continues_first
              (fun _ _ =>
                 Client.Ok
                   (Client.mkRunResult
                      [Client.mkMessage "user" "hello";
                       Client.mkMessage "assistant" "hi"] "hi"))
              "trace_1" "trace_2" "hello" "and now?" []
              (Client.mkAgent "Home Assistant" Client.instructions_without_tools [])
              (Client.mkRunResult
                 [Client.mkMessage "user" "hello";
                  Client.mkMessage "assistant" "hi"] "hi")
              (snd (Client.initialise_llm Client.agent_ok Client.initial))
              eq_refl eq_refl eq_refl))).
Defined.

(** X21 at a first turn whose runner raises. *)
Lemma failed_turn_keeps_continuation_witness :
  let w := snd (Client.initialise_llm Client.agent_ok Client.initial) in
  let run :=
    fun (_ : Client.Agent) (_ : Client.AgentInput) =>
      @Client.Raised Client.RunResult "rate limit" in
  Client.agent w
  = Some (Client.mkAgent "Home Assistant" Client.instructions_without_tools [])
  /\ fst (Client.process_user_input run "trace_1" "hello" [] w)
     = Client.Raised "rate limit".
Proof.
  cbv zeta. split; [reflexivity |].
  exact (proj1 (failed_turn_keeps_continuation
                  (fun _ _ => Client.Raised "rate limit")
                  "trace_1" "hello" "rate limit" []
                  (Client.mkAgent "Home Assistant"
                     Client.instructions_without_tools [])
                  (snd (Client.initialise_llm Client.agent_ok Client.initial))
                  eq_refl (fun _ => eq_refl))).
Defined.

(** X22 at a shutdown after a start, nothing failing. *)
Lemma shutdown_leaves_child_running_witness :
  let w1 := snd (Client.start_mcp_server Client.start_ok Client.initial) in
  fst (Client.start_mcp_server Client.start_ok Client.initial)
  = Client.started_message
  /\ Client.running (snd (Client.shutdown None w1)) 0 = true.
Proof.
  cbv zeta. split; [reflexivity |].
  exact (proj1 (shutdown_leaves_child_running Client.start_ok None
                  Client.initial eq_refl)).
Defined.
